(** * os_tester: stage orchestration and visual synchronisation

    A shallow embedding of [StagesSystem.py] (the scorer, the action
    dispatcher, the synchronisation loop and the stage orchestrator) and
    the properties of its specification that were checked against it.

    Conventions of the embedding
    - numpy [uint8] arrays are a shape and a flat buffer of [Z] in [0, 256);
      the wrap-around of [uint8] and [uint64] arithmetic is written out;
    - Python floats that hold scores, thresholds and clock readings are
      exact rationals [Q]; statements compare them with [==], [<], [<=];
    - Python dictionaries are [gmap string _];
    - effects (screenshots, clock readings, input events, telemetry,
      process exit, exceptions) are threaded through a small state and
      outcome monad; [while True] loops take fuel;
    - console narration ([print]) has no influence on any result and is
      left out. *)

From Stdlib Require Import ZArith QArith Qround Qpower String List Lia Bool.
From stdpp Require Import gmap strings list.

Local Open Scope Z_scope.

(** ** Images *)

Module Img.

(** [cv2.typing.MatLike] as read by [cv2.imread]: [shape = (rows, cols, chans)]
    and the element buffer in row-major order. *)
Record image := Image {
  rows : nat;
  cols : nat;
  chans : nat;
  data : list Z
}.

Definition image_eqb (a b : image) : bool :=
  Nat.eqb (rows a) (rows b) && Nat.eqb (cols a) (cols b)
  && Nat.eqb (chans a) (chans b)
  && bool_decide (data a = data b).

Definition same_shape (a b : image) : bool :=
  Nat.eqb (rows a) (rows b) && Nat.eqb (cols a) (cols b)
  && Nat.eqb (chans a) (chans b).

(** An image whose every element is [v]. *)
Definition solid (h w c : nat) (v : Z) : image :=
  Image h w c (repeat v (h * w * c)).

(** OpenCV's [saturate_cast<uchar>]. *)
Definition saturate_u8 (z : Z) : Z := Z.min 255 (Z.max 0 z).

(** [cv2.subtract] on two [uint8] arrays: element-wise saturating
    difference; arrays of different shapes are refused ([cv2.error]),
    which is [None] here. *)
Definition cv2_subtract (a b : image) : option image :=
  if same_shape a b
  then Some (Image (rows a) (cols a) (chans a)
               (zip_with (fun x y => saturate_u8 (x - y)) (data a) (data b)))
  else None.

(** [arr ** 2] on a [uint8] array stays [uint8]: the square wraps
    modulo 256. *)
Definition u8_square (a : image) : image :=
  Image (rows a) (cols a) (chans a) (map (fun d => (d * d) mod 256) (data a)).

(** [np.sum] of a [uint8] array accumulates in [uint64]. *)
Definition np_sum (a : image) : Z :=
  fold_left (fun acc x => (acc + x) mod 2 ^ 64) (data a) 0.

End Img.
Export Img.

(** ** The image similarity scorer *)

Module Scorer.

Local Open Scope Q_scope.

(** Python's [min(a, b)]: [b] when [b < a], else [a]. *)
Definition py_min (a b : Q) : Q := if Qle_bool a b then a else b.

(** [StagesSystem.__img_mse].  The quotient [err / float(h * w)] is a
    rational here; for an empty image Python yields [nan], a case the
    theorems below exclude. *)
Definition img_mse (curImg refImg : image) : option (Q * image) :=
  match cv2_subtract curImg refImg with
  | None => None
  | Some imgDif =>
      let err := np_sum (u8_square imgDif) in
      let h := rows curImg in
      let w := cols curImg in
      let mse := inject_Z err / inject_Z (Z.of_nat (h * w)) in
      let mse := py_min mse 10 in
      Some (mse, imgDif)
  end.

(** The two numeric routines the scorer takes from its libraries:
    [cv2.resize(img, (w, h))] and skimage's [structural_similarity], which
    raises [ValueError] ([None] here) where it has no score to give. *)
Record primitives := Primitives {
  cv2_resize : image -> nat -> nat -> image;
  ssimFunc : image -> image -> option Q
}.

(** What [cv2.resize] guarantees about the shape of its result. *)
Definition resize_shape (P : primitives) : Prop :=
  forall img w h,
    rows (cv2_resize P img w h) = h /\
    cols (cv2_resize P img w h) = w /\
    chans (cv2_resize P img w h) = chans img.

(** When [structural_similarity] raises on two images of one shape: its
    window is 7 pixels wide and high, and an image with a side below 7 is
    refused ([channel_axis=-1]: the channels are not a side). *)
Definition ssim_window (P : primitives) : Prop :=
  forall a b,
    same_shape a b = true ->
    (ssimFunc P a b = None <-> (rows b < 7)%nat \/ (cols b < 7)%nat).

(** [StagesSystem.__comp_images]; [None] when one of its two calls
    raises. *)
Definition comp_images (P : primitives) (curImg refImg : image)
  : option (Q * Q * image) :=
  let hRef := rows refImg in
  let wRef := cols refImg in
  let curImgResized := cv2_resize P curImg wRef hRef in
  match img_mse curImgResized refImg with
  | None => None
  | Some (mse, difImg) =>
      match ssimFunc P curImgResized refImg with
      | None => None
      | Some ssimIndex => Some (mse, ssimIndex, difImg)
      end
  end.

(** The mean square error as the specification words it: the signed
    element-wise differences, squared and summed without truncation,
    over the pixel count, clamped to 10. *)
Definition sum_sq_diff (a b : list Z) : Z :=
  fold_left Z.add (zip_with (fun x y => (x - y) * (x - y))%Z a b) 0%Z.

Definition mse_of_spec (cur ref : image) : Q :=
  py_min (inject_Z (sum_sq_diff (data cur) (data ref))
          / inject_Z (Z.of_nat (rows ref * cols ref))) 10.

End Scorer.
Export Scorer.

(** ** Data model *)

Module Model.

(** The Python values that occur as names and inside action payloads. *)
Inductive pyval :=
| VNone
| VStr (s : string)
| VNum (q : Q).

(** Python's [==] on those values. *)
Definition py_eqb (a b : pyval) : bool :=
  match a, b with
  | VNone, VNone => true
  | VStr s, VStr t => String.eqb s t
  | VNum p, VNum q => Qeq_bool p q
  | _, _ => false
  end.

(** The dictionary stored under an action's key, for instance
    [{"value": "a", "duration_s": 0.25}]. *)
Abbreviation payload := (gmap string pyval).

(** One action descriptor: a dictionary from the action kind to its payload. *)
Abbreviation action := (gmap string payload).

Record subpath := Subpath {
  checkFile : string;
  checkMseLeq : Q;
  checkSsimGeq : Q;
  nextStage : pyval
}.

Record stage := Stage {
  name : pyval;
  actions : list action;
  timeoutS : Q;
  pathsList : list subpath
}.

Record stages := Stages {
  stagesList : list stage
}.

(** Python's private names: inside [class cls], an identifier that starts
    with two underscores and does not end with two stands for [_cls]
    followed by the identifier. *)
Definition ends_with (suffix s : string) : bool :=
  String.eqb
    (String.substring (String.length s - String.length suffix)
                      (String.length suffix) s) suffix
  && Nat.leb (String.length suffix) (String.length s).

Definition mangle (cls name : string) : string :=
  if String.prefix "__" name && negb (ends_with "__" name)
  then ("_" ++ cls ++ name)%string
  else name.

(** The attributes of a [newvm] object: the fields [__init__] sets and the
    methods of the class, under the names the class body gives them.
    ([IAction], the base class, is not among the sources.) *)
Definition newvm_attributes : list string :=
  ["conn"; "uuid"; "vmDom"]%string ++
  map (mangle "newvm")
      ["__init__"; "try_load"; "__get_screen_size"; "__send_action";
       "__send_keyboard_text_action"; "send_keyboard_key_action";
       "send_mouse_move_action"; "send_mouse_click_action";
       "send_commandk_action"; "destroy"; "create"; "take_screenshot"]%string.

Definition newvm_hasattr (attr : string) : bool :=
  existsb (String.eqb attr) newvm_attributes.

End Model.
Export Model.

(** ** Effects *)

Module Effects.

(** The calls [StagesSystem] makes on its machine ([IAction]):
    [take_screenshot] and the four methods the dispatcher asks for, which
    it spells [__send_mouse_move_action] and so on. *)
Inductive call :=
| take_screenshot (targetPath : string)
| send_mouse_move_action (p : payload)
| send_mouse_click_action (p : payload)
| send_keyboard_key_action (p : payload)
| send_keyboard_text_action (p : payload).

(** Everything observable a run does, in the order it does it. *)
Inductive event :=
| Machine (c : call)
| UpdatePlot (refImg curImg difImg : image) (mse ssimIndex : Q) (same : Z)
| Sleep (seconds : Q).

(** What a run reads from its surroundings: the file system that holds the
    reference images, what the machine displays at its n-th capture, what
    the n-th reading of the clock returns, and which attributes the
    machine object has beside [take_screenshot] (asked for the methods
    that the dispatcher calls). *)
Record world := World {
  path_exists : string -> bool;
  path_isfile : string -> bool;
  cv2_imread : string -> image;
  display : nat -> image;
  time : nat -> Q;
  machine_hasattr : string -> bool
}.

(** How far a run has got: captures taken, clock readings made, and the
    events so far (oldest first). *)
Record state := State {
  shots : nat;
  ticks : nat;
  trace : list event
}.

Definition initial : state := State 0 0 [].

Inductive exn :=
| IndexError
| UnboundLocalError
| Cv2Error
| ValueError
| AttributeError (attr : string)
| InvalidStageAction (a : action).

(** How a call ends: a value, [sys.exit(code)], an exception, or the fuel
    of a [while True] ran out. *)
Inductive outcome (A : Type) :=
| Ret (a : A)
| SysExit (code : Z)
| Raise (e : exn)
| OutOfFuel.
Arguments Ret {A} a.
Arguments SysExit {A} code.
Arguments Raise {A} e.
Arguments OutOfFuel {A}.

Definition M (A : Type) : Type := state -> outcome A * state.

Definition ret {A} (a : A) : M A := fun s => (Ret a, s).

Definition bind {A B} (m : M A) (k : A -> M B) : M B :=
  fun s =>
    match m s with
    | (Ret a, s') => k a s'
    | (SysExit c, s') => (SysExit c, s')
    | (Raise e, s') => (Raise e, s')
    | (OutOfFuel, s') => (OutOfFuel, s')
    end.

Definition sys_exit {A} (code : Z) : M A := fun s => (SysExit code, s).
Definition raise {A} (e : exn) : M A := fun s => (Raise e, s).
Definition out_of_fuel {A} : M A := fun s => (OutOfFuel, s).

Definition emit (e : event) : M unit :=
  fun s => (Ret tt, State (shots s) (ticks s) (trace s ++ [e])).

(** [time()]. *)
Definition py_time (w : world) : M Q :=
  fun s => (Ret (time w (ticks s)), State (shots s) (S (ticks s)) (trace s)).

(** [sleep(seconds)]. *)
Definition py_sleep (seconds : Q) : M unit := emit (Sleep seconds).

(** [self.machine.take_screenshot(path)] followed by [cv2.imread(path)]. *)
Definition capture (w : world) (targetPath : string) : M image :=
  fun s => (Ret (display w (shots s)),
            State (S (shots s)) (ticks s)
                  (trace s ++ [Machine (take_screenshot targetPath)])).

End Effects.
Export Effects.

Declare Scope sm_scope.
Delimit Scope sm_scope with sm.
Notation "x <- c ;; k" := (bind c (fun x => k))
  (at level 100, c at next level, right associativity) : sm_scope.
Notation "c ;;; k" := (bind c (fun _ => k))
  (at level 100, right associativity) : sm_scope.

(** ** The program: [class StagesSystem] *)

Module StagesSystem.

Local Open Scope sm_scope.

(** The fields of a [StagesSystem] object that its methods read.  Its
    machine is represented by the [Machine] events of the trace. *)
Record t := Make {
  uuid : string;
  debugPlt : bool
}.

(** *** The action dispatcher *)

(** [self.machine.<name>(...)] as written inside [class StagesSystem]:
    the attribute asked of the machine is the private form of [name]; a
    machine without it raises [AttributeError], and no call is made.  A
    machine that has it is called, and the call is taken to return. *)
Definition machine_call (w : world) (name : string) (c : call) : M unit :=
  let attr := mangle "StagesSystem" name in
  if machine_hasattr w attr then emit (Machine c)
  else raise (AttributeError attr).

(** One turn of the loop of [__perform_stage_actions]: the chain of
    [if "<kind>" in action] tests and the call each one leads to. *)
Definition perform_action (w : world) (a : action) : M unit :=
  match a !! "mouse_move"%string with
  | Some p =>
      machine_call w "__send_mouse_move_action" (send_mouse_move_action p)
  | None =>
  match a !! "mouse_click"%string with
  | Some p =>
      machine_call w "__send_mouse_click_action" (send_mouse_click_action p)
  | None =>
  match a !! "keyboard_key"%string with
  | Some p =>
      machine_call w "__send_keyboard_key_action" (send_keyboard_key_action p)
  | None =>
  match a !! "keyboard_text"%string with
  | Some p =>
      machine_call w "__send_keyboard_text_action" (send_keyboard_text_action p)
  | None =>
  match a !! "command"%string with
  | Some p =>
      machine_call w "__send_keyboard_text_action" (send_keyboard_text_action p)
  | None => raise (InvalidStageAction a)
  end end end end end.

Fixpoint perform_actions (w : world) (acts : list action) : M unit :=
  match acts with
  | [] => ret tt
  | a :: rest => perform_action w a ;;; perform_actions w rest
  end.

(** [StagesSystem.__perform_stage_actions]. *)
Definition perform_stage_actions (w : world) (stageObj : stage) : M unit :=
  perform_actions w (actions stageObj).

(** *** The visual synchronisation loop *)

Definition Qltb (a b : Q) : bool := negb (Qle_bool b a).

(** The first loop of [__wait_for_stage_done]: every reference file is
    checked and read, in declared order. *)
Fixpoint load_refs (w : world) (paths : list subpath) : M (list image) :=
  match paths with
  | [] => ret []
  | sp :: rest =>
      let refImgPath := checkFile sp in
      if negb (path_exists w refImgPath) then sys_exit 2
      else if negb (path_isfile w refImgPath) then sys_exit 3
      else
        refImgList <- load_refs w rest ;;
        ret (cv2_imread w refImgPath :: refImgList)
  end.

(** The exception that leaves [__comp_images] when it does not return:
    [cv2.error] from the subtraction, or else [ValueError] from
    [structural_similarity]. *)
Definition comp_images_raises (P : primitives) (curImg refImg : image) : exn :=
  match img_mse (cv2_resize P curImg (cols refImg) (rows refImg)) refImg with
  | None => Cv2Error
  | Some _ => ValueError
  end.

(** The [for index, refImg in enumerate(refImgList)] loop of one polling
    iteration; the result is [resultindex].  [subpath] is the variable of
    that name as the polling loop finds it: the first loop is the only
    place that assigns it, so it is unbound for an empty [pathsList] and
    holds the last candidate otherwise. *)
Fixpoint scan (self : t) (P : primitives) (subpath : option subpath)
    (curImg : image) (refImgList : list image) (index : nat) : M Z :=
  match refImgList with
  | [] => ret (-1)
  | refImg :: rest =>
      match comp_images P curImg refImg with
      | None => raise (comp_images_raises P curImg refImg)
      | Some (mse, ssimIndex, difImg) =>
          match subpath with
          | None => raise UnboundLocalError
          | Some sp =>
              let same : Z :=
                if Qltb mse (checkMseLeq sp) && Qltb (checkSsimGeq sp) ssimIndex
                then 1 else 0 in
              (if debugPlt self
               then emit (UpdatePlot refImg curImg difImg mse ssimIndex same)
               else ret tt) ;;;
              if same >=? 1 then ret (Z.of_nat index)
              else scan self P (Some sp) curImg rest (S index)
          end
      end
  end.

(** The [while True] loop of [__wait_for_stage_done]. *)
Fixpoint poll (fuel : nat) (self : t) (P : primitives) (w : world)
    (stageObj : stage) (timeoutinS start : Q) (refImgList : list image)
  : M subpath :=
  match fuel with
  | O => out_of_fuel
  | S fuel' =>
      let curImgPath := ("/tmp/" ++ uuid self ++ "_check.png")%string in
      curImg <- capture w curImgPath ;;
      resultindex <- scan self P (last (pathsList stageObj)) curImg refImgList 0 ;;
      if negb (resultindex =? -1) then
        match pathsList stageObj !! Z.to_nat resultindex with
        | Some sp => ret sp
        | None => raise IndexError
        end
      else
        now <- py_time w ;;
        if Qle_bool now (start + timeoutinS) then sys_exit 5
        else
          py_sleep (1 # 4) ;;;
          poll fuel' self P w stageObj timeoutinS start refImgList
  end.

(** [StagesSystem.__wait_for_stage_done]. *)
Definition wait_for_stage_done (fuel : nat) (self : t) (P : primitives)
    (w : world) (stageObj : stage) : M subpath :=
  let timeoutinS := timeoutS stageObj in
  start <- py_time w ;;
  refImgList <- load_refs w (pathsList stageObj) ;;
  poll fuel self P w stageObj timeoutinS start refImgList.

(** *** The stage orchestrator *)

(** [StagesSystem.__run_stage]. *)
Definition run_stage (fuel : nat) (self : t) (P : primitives) (w : world)
    (stageObj : stage) : M pyval :=
  start <- py_time w ;;
  subPath <- wait_for_stage_done fuel self P w stageObj ;;
  perform_stage_actions w stageObj ;;;
  finish <- py_time w ;;
  ret (nextStage subPath).

(** The [for stage in stagesObj.stagesList] loop of [run_stages].  Its
    body leaves the loop on the first element either way: [break] when the
    name is the requested one, [exit(10)] from the [else] of the [if]
    otherwise.  Over an empty list [nextStage] stays what it was. *)
Definition select_stage (stagesList : list stage) (nextStageName : pyval)
    (nextStage : stage) : M stage :=
  match stagesList with
  | [] => ret nextStage
  | stage :: _ =>
      if py_eqb (name stage) nextStageName then ret stage
      else sys_exit 10
  end.

(** The [while True] loop of [run_stages]. *)
Fixpoint run_from (rounds fuel : nat) (self : t) (P : primitives) (w : world)
    (stagesObj : stages) (nextStage : stage) : M unit :=
  match rounds with
  | O => out_of_fuel
  | S rounds' =>
      nextStageName <- run_stage fuel self P w nextStage ;;
      if py_eqb nextStageName (VStr "None") then ret tt
      else
        nextStage' <- select_stage (stagesList stagesObj) nextStageName nextStage ;;
        run_from rounds' fuel self P w stagesObj nextStage'
  end.

(** [StagesSystem.run_stages]. *)
Definition run_stages (rounds fuel : nat) (self : t) (P : primitives)
    (w : world) (stagesObj : stages) : M unit :=
  match stagesList stagesObj !! 0%nat with
  | None => raise IndexError
  | Some nextStage => run_from rounds fuel self P w stagesObj nextStage
  end.

End StagesSystem.
Export StagesSystem.

(** ** Vocabulary of the specification *)

Module Spec.

(** The action kinds of the data model. *)
Definition known_kinds : list string :=
  ["mouse_move"; "mouse_click"; "keyboard_key"; "keyboard_text"; "command"]%string.

(** The machine call that corresponds to a descriptor of a given kind. *)
Definition capability (kind : string) (p : payload) : option call :=
  if String.eqb kind "mouse_move" then Some (send_mouse_move_action p)
  else if String.eqb kind "mouse_click" then Some (send_mouse_click_action p)
  else if String.eqb kind "keyboard_key" then Some (send_keyboard_key_action p)
  else if String.eqb kind "keyboard_text" then Some (send_keyboard_text_action p)
  else if String.eqb kind "command" then Some (send_keyboard_text_action p)
  else None.

(** Descriptor [a] is the variant [kind]: of the known kinds it has this
    one and no other. *)
Definition only_kind (a : action) (kind : string) : Prop :=
  Forall (fun k => k = kind \/ a !! k = None) known_kinds.

Definition describes (a : action) (c : call) : Prop :=
  exists kind p,
    a !! kind = Some p /\ only_kind a kind /\ capability kind p = Some c.

(** The method of the machine that the dispatcher names for a descriptor
    of a given kind, as the dispatcher spells it. *)
Definition method_of (kind : string) : string :=
  if String.eqb kind "mouse_move" then "__send_mouse_move_action"
  else if String.eqb kind "mouse_click" then "__send_mouse_click_action"
  else if String.eqb kind "keyboard_key" then "__send_keyboard_key_action"
  else "__send_keyboard_text_action".

(** The attribute the machine is asked for, for a descriptor of a given
    kind. *)
Definition attribute_of (kind : string) : string :=
  mangle "StagesSystem" (method_of kind).

(** The machine of [w] can be sent descriptor [a], and [c] is the call
    made for it. *)
Definition serves (w : world) (a : action) (c : call) : Prop :=
  exists kind p,
    a !! kind = Some p /\ only_kind a kind /\ capability kind p = Some c /\
    machine_hasattr w (attribute_of kind) = true.

(** Descriptor [a] stops the dispatcher with exception [e]: it is of no
    known kind, or of a kind whose method the machine of [w] lacks. *)
Definition refused (w : world) (a : action) (e : exn) : Prop :=
  (Forall (fun k => a !! k = None) known_kinds /\
   e = InvalidStageAction a) \/
  (exists kind p c,
     a !! kind = Some p /\ only_kind a kind /\ capability kind p = Some c /\
     machine_hasattr w (attribute_of kind) = false /\
     e = AttributeError (attribute_of kind)).

(** The candidate whose reference file stops the loading loop: the first
    one, in declared order, that is missing or not a regular file. *)
Definition first_bad (w : world) (paths : list subpath) : option subpath :=
  find (fun sp => negb (path_exists w (checkFile sp))
                  || negb (path_isfile w (checkFile sp))) paths.

(** A candidate's own thresholds, applied to a pair of scores. *)
Definition meets (sp : subpath) (mse ssim : Q) : Prop :=
  (mse < checkMseLeq sp /\ checkSsimGeq sp < ssim)%Q.

(** The test the polling loop applies to a capture and a reference image,
    with the thresholds of [sp]. *)
Definition passes (P : primitives) (sp : subpath) (cur ref : image) : bool :=
  match comp_images P cur ref with
  | Some (mse, ssim, _) =>
      Qltb mse (checkMseLeq sp) && Qltb (checkSsimGeq sp) ssim
  | None => false
  end.

(** The events of a trace other than telemetry. *)
Definition is_plot (e : event) : bool :=
  match e with UpdatePlot _ _ _ _ _ _ => true | _ => false end.

Definition quiet (evs : list event) : list event :=
  List.filter (fun e => negb (is_plot e)) evs.

(** Two states that differ in telemetry events only. *)
Definition sim (s1 s2 : state) : Prop :=
  shots s1 = shots s2 /\ ticks s1 = ticks s2 /\
  quiet (trace s1) = quiet (trace s2).

(** Two computations that end alike from such states, and leave such
    states. *)
Definition agree {A} (m1 m2 : M A) : Prop :=
  forall s1 s2, sim s1 s2 ->
    fst (m1 s1) = fst (m2 s2) /\ sim (snd (m1 s1)) (snd (m2 s2)).

(** Computations that emit no telemetry. *)
Definition silent {A} (m : M A) : Prop :=
  forall s, quiet (trace s) = trace s ->
    quiet (trace (snd (m s))) = trace (snd (m s)).

(** One iteration of the orchestrator that goes on: the stage of [x] is
    run from the state of [x], the name it yields is not the sentinel, and
    the lookup of that name gives the stage and state of [y]. *)
Definition transition (fuel : nat) (self : StagesSystem.t) (P : primitives)
    (w : world) (stagesObj : stages) (x y : stage * state) : Prop :=
  exists n s1,
    run_stage fuel self P w (fst x) (snd x) = (Ret n, s1) /\
    py_eqb n (VStr "None") = false /\
    select_stage (stagesList stagesObj) n (fst x) s1 = (Ret (fst y), snd y).

End Spec.
Export Spec.

(** ** Scenarios

    Concrete images, primitives and worlds on which the definitions above
    are run. *)

Module Scenario.

Local Open Scope Q_scope.

(** 7 x 7 BGR images of one colour. *)
Definition black : image := solid 7 7 3 0.
Definition dim : image := solid 7 7 3 1.
Definition bright : image := solid 7 7 3 4.
Definition grey16 : image := solid 7 7 3 16.

(** Nearest-neighbour sampling, standing in for [cv2.resize]: like it, it
    returns the requested size and leaves an image of that size as it is. *)
Definition nearest_resize (img : image) (w h : nat) : image :=
  Image h w (chans img)
    (flat_map (fun r =>
       flat_map (fun c =>
         map (fun k =>
                nth (((r * rows img / h) * cols img + c * cols img / w)
                     * chans img + k)%nat (data img) 0%Z)
             (seq 0 (chans img)))
         (seq 0 w))
       (seq 0 h)).

(** The similarity scores of the scenarios: images of different shapes
    and images with a side below 7 are refused; identical images score 1,
    as with SSIM, and two different images score 13/15 (about the SSIM of
    [dim] against [black]). *)
Definition lab : primitives :=
  Primitives nearest_resize
             (fun a b =>
                if negb (same_shape a b)
                   || (rows b <? 7)%nat || (cols b <? 7)%nat then None
                else Some (if image_eqb a b then 1 else 13 # 15)).

(** The object under test: machine [vm0], telemetry off. *)
Definition vm0 : StagesSystem.t := Make "vm0" false.

(** Reference files: [login.png] and [a.png] are black, every other file
    is [dim]. *)
Definition ref_files (p : string) : image :=
  if (String.eqb p "login.png" || String.eqb p "a.png")%bool then black
  else dim.

(** A world in which every path is a regular file, the machine is a
    [newvm] and shows [shown] at every capture, and the n-th clock reading
    is n seconds. *)
Definition showing (shown : image) : world :=
  World (fun _ => true) (fun _ => true) ref_files (fun _ => shown)
        (fun n => inject_Z (Z.of_nat n)) newvm_hasattr.

(** The same world with a machine that has every attribute it is asked
    for (a test double). *)
Definition stand_in (shown : image) : world :=
  World (fun _ => true) (fun _ => true) ref_files (fun _ => shown)
        (fun n => inject_Z (Z.of_nat n)) (fun _ => true).

(** The same world without the file [missing.png], and with [/tmp] a
    directory. *)
Definition some_missing (shown : image) : world :=
  World (fun p => negb (String.eqb p "missing.png"))
        (fun p => negb (String.eqb p "/tmp"))
        ref_files (fun _ => shown)
        (fun n => inject_Z (Z.of_nat n)) newvm_hasattr.

(** A world like [showing], in which every clock reading after the first
    comes 100 seconds after it. *)
Definition late (shown : image) : world :=
  World (fun _ => true) (fun _ => true) ref_files (fun _ => shown)
        (fun n => match n with O => 0 | S _ => 100 end) newvm_hasattr.

(** A stage with a strict and a lenient candidate. *)
Definition strict_login : subpath :=
  Subpath "login.png" 1 (1 # 2) (VStr "desktop").
Definition lenient_error : subpath :=
  Subpath "error.png" 5 (1 # 2) (VStr "None").
Definition login_or_error : stage :=
  Stage (VStr "login") [] 10 [strict_login; lenient_error].

(** A stage whose two candidates are both met by a [dim] screen. *)
Definition first_choice : subpath :=
  Subpath "a.png" 5 (1 # 2) (VStr "desktop").
Definition second_choice : subpath :=
  Subpath "b.png" 1 (1 # 2) (VStr "None").
Definition two_choices : stage :=
  Stage (VStr "boot") [] 10 [first_choice; second_choice].

(** A two-stage script: [login] leads to [desktop], [desktop] ends the
    run. *)
Definition to_desktop : subpath :=
  Subpath "login.png" 1 (1 # 2) (VStr "desktop").
Definition to_end : subpath :=
  Subpath "login.png" 1 (1 # 2) (VStr "None").
Definition login : stage := Stage (VStr "login") [] 10 [to_desktop].
Definition desktop : stage := Stage (VStr "desktop") [] 10 [to_end].
Definition script : stages := Stages [login; desktop].


(** A stage that refers to a file that is not there. *)
Definition broken : stage :=
  Stage (VStr "broken") [] 10
        [to_desktop; Subpath "missing.png" 1 (1 # 2) (VStr "None")].

(** A stage with one action of every kind. *)
Definition key (value : string) : payload :=
  {[ "value"%string := VStr value; "duration_s"%string := VNum (1 # 4) ]}.
Definition move : payload :=
  {[ "x_rel"%string := VNum (1 # 2); "y_rel"%string := VNum (1 # 2);
     "duration_s"%string := VNum (1 # 4) ]}.
Definition typing : stage :=
  Stage (VStr "typing")
        [ {[ "mouse_move"%string := move ]};
          {[ "mouse_click"%string := key "left" ]};
          {[ "keyboard_key"%string := key "ret" ]};
          {[ "keyboard_text"%string := key "abc" ]};
          {[ "command"%string := key "reboot" ]} ]
        10 [to_end].

End Scenario.
Export Scenario.

(** ** Proof steps *)

(** One test of the dispatcher's chain, for a descriptor of kind [kind]:
    either [k] is that kind, and its call is made, or the descriptor has
    no key [k] and the chain goes on. *)
Ltac dispatch_kind k :=
  match goal with
  | Hc : context [String.eqb ?kind k],
    Hp : _ !! ?kind = Some _,
    Hnone : forall k', k' ∈ known_kinds -> k' ≠ ?kind -> _ |- _ =>
      destruct (String.eqb_spec kind k) as [-> | ?];
      [ rewrite Hp; injection Hc as <-; reflexivity
      | rewrite (Hnone k); [ | set_solver | congruence ] ]
  end.

(** Checks, by evaluation, that a concrete descriptor is of the kind
    given. *)
Ltac one_kind :=
  split; [vm_compute; reflexivity | split; [| vm_compute; reflexivity]];
  repeat first [apply List.Forall_cons | apply List.Forall_nil];
  first [left; reflexivity | right; vm_compute; reflexivity].


(** ** The machine driver: [class newvm] *)

Module Newvm.

Local Open Scope Q_scope.

(** The dictionaries sent to the qemu monitor, as [json.dumps] receives
    them; a dictionary keeps the order of its literal. *)
#[local] Unset Elimination Schemes.
Inductive json :=
| JNull
| JBool (b : bool)
| JNum (q : Q)
| JStr (s : string)
| JList (l : list json)
| JDict (l : list (string * json)).
#[local] Set Elimination Schemes.

Definition json_of_pyval (v : pyval) : json :=
  match v with
  | VNone => JNull
  | VStr s => JStr s
  | VNum q => JNum q
  end.

(** A [libvirt.virDomain] handle. *)
Record virDomain := Domain { dom_id : nat }.

(** How a call of [libvirt_qemu.qemuMonitorCommand] ends. *)
Inductive monitor_result :=
| Response (r : string)
| RaisesLibvirtError
| RaisesOther.

(** The libvirt host behind [self.conn], and the image decoder:
    [lookupByUUIDString] finds a domain or raises [libvirtError] ([None]
    here); the n-th monitor command and the n-th screenshot end as the host
    decides, a screenshot giving the chunks that [stream.recv] returns in
    turn, or raising [libvirtError]; [reboot] and [destroy] of a domain
    succeed or raise [libvirtError]; [cv2.imread] decodes the bytes of a
    file or returns [None]. *)
Record host := Host {
  lookupByUUIDString : string -> option virDomain;
  qemuMonitorCommand : nat -> monitor_result;
  screenshot : nat -> option (list (list Byte.byte));
  dom_reboot : virDomain -> bool;
  dom_destroy : virDomain -> bool;
  imread : list Byte.byte -> option image
}.

(** What the driver does to its surroundings, oldest first. *)
Inductive vmevent :=
| Monitor (dom : option virDomain) (cmd : json)
| Slept (seconds : Q)
| NewStream
| Screenshot (dom : virDomain)
| StreamFinish
| Reboot (dom : virDomain)
| Destroy (dom : virDomain).

(** The field [vmDom] of the object, the file system, and how far the
    run has got. *)
Record vmstate := VmState {
  vmDom : option virDomain;
  monitor_calls : nat;
  screenshots : nat;
  files : gmap string (list Byte.byte);
  log : list vmevent
}.

Inductive pyexn :=
| KeyError (k : string)
| TypeError
| ValueError
| AssertionError
| AttributeError
| FileNotFoundError
| libvirtError
| MonitorError
| Exception (msg : string)
| NotModelled.

Inductive result (A : Type) :=
| Ok (a : A)
| Err (e : pyexn).
Arguments Ok {A} a.
Arguments Err {A} e.

Definition VM (A : Type) : Type := vmstate -> result A * vmstate.

Definition ok {A} (a : A) : VM A := fun s => (Ok a, s).
Definition err {A} (e : pyexn) : VM A := fun s => (Err e, s).

Definition vbind {A B} (m : VM A) (k : A -> VM B) : VM B :=
  fun s =>
    match m s with
    | (Ok a, s') => k a s'
    | (Err e, s') => (Err e, s')
    end.

Definition record (e : vmevent) : VM unit :=
  fun s => (Ok tt, VmState (vmDom s) (monitor_calls s) (screenshots s)
                           (files s) (log s ++ [e])).

(** [d[k]] on a dictionary. *)
Definition getitem (d : payload) (k : string) : VM pyval :=
  match d !! k with
  | Some v => ok v
  | None => err (KeyError k)
  end.

(** [sleep(v)]: a non-negative number of seconds. *)
Definition sleep (v : pyval) : VM unit :=
  match v with
  | VNum q => if Qle_bool 0 q then record (Slept q) else err ValueError
  | _ => err TypeError
  end.

(** Python's floats.  [binary64 x] is the float nearest to the rational
    [x], ties to even: 53 significant bits.  The exponent range of the
    format (overflow, subnormal numbers) is left out. *)
Definition round_half_even (x : Q) : Z :=
  let f := Qfloor x in
  match Qcompare (x - inject_Z f) (1 # 2) with
  | Lt => f
  | Gt => (f + 1)%Z
  | Eq => if Z.even f then f else (f + 1)%Z
  end.

(** For [0 < x], the [k] with [2 ^ k <= x < 2 ^ (k + 1)]. *)
Definition binade (x : Q) : Z :=
  let k := (Z.log2 (Qnum x) - Z.log2 (Zpos (Qden x)))%Z in
  if Qle_bool (2 ^ k) x then k else (k - 1)%Z.

Definition binary64 (x : Q) : Q :=
  match Qcompare x 0 with
  | Eq => 0
  | Gt => let u := 2 ^ (binade x - 52) in
          inject_Z (round_half_even (x / u)) * u
  | Lt => let u := 2 ^ (binade (- x) - 52) in
          - (inject_Z (round_half_even (- x / u)) * u)
  end.

(** [int(r)] on a float: truncation towards zero. *)
Definition int_of_float (r : Q) : Z := Z.quot (Qnum r) (Zpos (Qden r)).

(** [int(n * v)] for an integer [n] and a number [v]: the product is a
    float, rounded as such, and then truncated.  A float [v] holds its
    exact value: the literal [0.29] is [VNum (binary64 (29 # 100))].  The
    repetition [n * "text"] of a string is left out. *)
Definition int_times (n : Z) (v : pyval) : VM Z :=
  match v with
  | VNum q => ok (int_of_float (binary64 (inject_Z n * q)))
  | VNone => err TypeError
  | VStr _ => err NotModelled
  end.

Declare Scope vm_scope.
Delimit Scope vm_scope with vm.
Notation "x <- c ;; k" := (vbind c (fun x => k))
  (at level 100, c at next level, right associativity) : vm_scope.
Notation "c ;;; k" := (vbind c (fun _ => k))
  (at level 100, right associativity) : vm_scope.
Local Open Scope vm_scope.

Section Driver.

(** [self.conn] and [self.uuid]. *)
Variable conn : host.
Variable uuid : string.

(** [newvm.try_load]. *)
Definition try_load : VM bool :=
  fun s =>
    match lookupByUUIDString conn uuid with
    | Some d =>
        (Ok true, VmState (Some d) (monitor_calls s) (screenshots s)
                          (files s) (log s))
    | None => (Ok false, s)
    end.

(** [newvm.__send_action]: a [libvirtError] of the monitor is caught, and
    the result is [None] then. *)
Definition send_action (cmdDict : json) : VM (option string) :=
  fun s =>
    let s' := VmState (vmDom s) (S (monitor_calls s)) (screenshots s)
                      (files s) (log s ++ [Monitor (vmDom s) cmdDict]) in
    match qemuMonitorCommand conn (monitor_calls s) with
    | Response r => (Ok (Some r), s')
    | RaisesLibvirtError => (Ok None, s')
    | RaisesOther => (Err MonitorError, s')
    end.

(** The [input-send-event] command with one event. *)
Definition input_send_event (events : list json) : json :=
  JDict [("execute", JStr "input-send-event");
         ("arguments", JDict [("events", JList events)])]%string.

Definition key_event (down : bool) (k : json) : json :=
  JDict [("type", JStr "key");
         ("data", JDict [("down", JBool down);
                         ("key", JDict [("type", JStr "qcode");
                                        ("data", k)])])]%string.

Definition btn_event (down : bool) (button : json) : json :=
  JDict [("type", JStr "btn");
         ("data", JDict [("down", JBool down); ("button", button)])]%string.

Definition axis_event (kind axis : string) (value : Z) : json :=
  JDict [("type", JStr kind);
         ("data", JDict [("axis", JStr axis);
                         ("value", JNum (inject_Z value))])]%string.

(** The body of the loop of [__send_keyboard_text_action], for the
    character [c]. *)
Definition type_char (keyboardText : payload) (c : Ascii.ascii) : VM unit :=
  let c := JStr (String c EmptyString) in
  send_action (input_send_event [key_event true c]) ;;;
  d <- getitem keyboardText "duration_s" ;;
  sleep d ;;;
  send_action (input_send_event [key_event false c]) ;;;
  d <- getitem keyboardText "duration_s" ;;
  sleep d.

Fixpoint type_chars (keyboardText : payload) (cs : list Ascii.ascii) : VM unit :=
  match cs with
  | [] => ok tt
  | c :: rest => type_char keyboardText c ;;; type_chars keyboardText rest
  end.

(** [newvm.__send_keyboard_text_action]. *)
Definition send_keyboard_text_action (keyboardText : payload) : VM unit :=
  value <- getitem keyboardText "value" ;;
  match value with
  | VStr text => type_chars keyboardText (list_ascii_of_string text)
  | _ => err TypeError
  end.

(** [newvm.send_keyboard_key_action]. *)
Definition send_keyboard_key_action (keyboardKey : payload) : VM unit :=
  value <- getitem keyboardKey "value" ;;
  send_action (input_send_event [key_event true (json_of_pyval value)]) ;;;
  d <- getitem keyboardKey "duration_s" ;;
  sleep d ;;;
  value <- getitem keyboardKey "value" ;;
  send_action (input_send_event [key_event false (json_of_pyval value)]) ;;;
  d <- getitem keyboardKey "duration_s" ;;
  sleep d.

(** [newvm.send_mouse_click_action]. *)
Definition send_mouse_click_action (mouseClick : payload) : VM unit :=
  value <- getitem mouseClick "value" ;;
  send_action (input_send_event [btn_event true (json_of_pyval value)]) ;;;
  d <- getitem mouseClick "duration_s" ;;
  sleep d ;;;
  value <- getitem mouseClick "value" ;;
  send_action (input_send_event [btn_event false (json_of_pyval value)]) ;;;
  d <- getitem mouseClick "duration_s" ;;
  sleep d.

(** The loop of [take_screenshot] over the chunks that [stream.recv]
    returns: it writes until the first empty chunk; a stream that has
    nothing left returns an empty chunk. *)
Fixpoint recv_all (chunks : list (list Byte.byte)) : list Byte.byte :=
  match chunks with
  | [] => []
  | [] :: _ => []
  | streamBytes :: rest => streamBytes ++ recv_all rest
  end.

(** [newvm.take_screenshot]. *)
Definition take_screenshot (targetPath : string) : VM unit :=
  record NewStream ;;;
  fun s =>
    match vmDom s with
    | None => (Err AssertionError, s)
    | Some d =>
        let n := screenshots s in
        match screenshot conn n with
        | None =>
            (Err libvirtError,
             VmState (vmDom s) (monitor_calls s) (S n) (files s) (log s))
        | Some chunks =>
            (Ok tt,
             VmState (vmDom s) (monitor_calls s) (S n)
                     (<[targetPath := recv_all chunks]> (files s))
                     (log s ++ [Screenshot d; StreamFinish]))
        end
    end.

(** [newvm.__get_screen_size]: the result is (width, height). *)
Definition get_screen_size : VM (nat * nat) :=
  let filePath := ("/tmp/" ++ uuid ++ "_screen_size.png")%string in
  take_screenshot filePath ;;;
  fun s =>
    match files s !! filePath with
    | None => (Err FileNotFoundError, s)
    | Some bytes =>
        let s' := VmState (vmDom s) (monitor_calls s) (screenshots s)
                          (delete filePath (files s)) (log s) in
        match imread conn bytes with
        | None => (Err AttributeError, s')
        | Some img => (Ok (cols img, rows img), s')
        end
    end.

(** [newvm.send_mouse_move_action]. *)
Definition send_mouse_move_action (mouseMove : payload) : VM unit :=
  size <- get_screen_size ;;
  let w := Z.of_nat (fst size) in
  let h := Z.of_nat (snd size) in
  x_rel <- getitem mouseMove "x_rel" ;;
  x <- int_times w x_rel ;;
  y_rel <- getitem mouseMove "y_rel" ;;
  y <- int_times h y_rel ;;
  send_action (input_send_event
                 [axis_event "abs" "x" 0; axis_event "abs" "y" 0;
                  axis_event "rel" "x" x; axis_event "rel" "y" y]) ;;;
  d <- getitem mouseMove "duration_s" ;;
  sleep d.

(** [newvm.send_commandk_action]. *)
Definition send_commandk_action (command : payload) : VM unit :=
  requested <- getitem command "command" ;;
  if py_eqb requested (VStr "reboot") then
    fun s =>
      match vmDom s with
      | None => (Err AssertionError, s)
      | Some d =>
          let s' := VmState (vmDom s) (monitor_calls s) (screenshots s)
                            (files s) (log s ++ [Reboot d]) in
          if dom_reboot conn d then (Ok tt, s') else (Err libvirtError, s')
      end
  else ok tt.

(** [newvm.destroy]. *)
Definition destroy : VM unit :=
  fun s =>
    match vmDom s with
    | None =>
        (Err (Exception "Can not destroy vm. Use try_load or create first!"), s)
    | Some d =>
        let s' := VmState (vmDom s) (monitor_calls s) (screenshots s)
                          (files s) (log s ++ [Destroy d]) in
        if dom_destroy conn d then (Ok tt, s') else (Err libvirtError, s')
    end.

(** [newvm.create]: the lookup raising [libvirtError] is suppressed; the
    exception for an existing machine is not. *)
Definition create (vmXml : string) : VM unit :=
  match lookupByUUIDString conn uuid with
  | Some _ =>
      err (Exception ("Can not create vm with UUID '" ++ uuid
                      ++ "'. VM already exists. Destroy first!"))
  | None => ok tt
  end.

(** What typing one character leaves in the log: press, pause, release,
    pause. *)
Definition typed (dom : option virDomain) (d : Q) (c : Ascii.ascii)
  : list vmevent :=
  let k := JStr (String c EmptyString) in
  [Monitor dom (input_send_event [key_event true k]); Slept d;
   Monitor dom (input_send_event [key_event false k]); Slept d].

(** One [send_keyboard_key_action] per character, each with the payload
    of the text action but the character as its value. *)
Fixpoint press_each (keyboardText : payload) (cs : list Ascii.ascii)
  : VM unit :=
  match cs with
  | [] => ok tt
  | c :: rest =>
      send_keyboard_key_action
        (<["value"%string := VStr (String c EmptyString)]> keyboardText) ;;;
      press_each keyboardText rest
  end.

(** The monitor answers or raises [libvirtError], nothing else. *)
Definition monitor_answers : Prop :=
  forall n, qemuMonitorCommand conn n <> RaisesOther.

(** A computation that leaves the files as they are. *)
Definition keeps_files {A} (m : VM A) : Prop :=
  forall s, files (snd (m s)) = files s.

(** The path of the screenshot that [__get_screen_size] takes. *)
Definition size_path : string := ("/tmp/" ++ uuid ++ "_screen_size.png")%string.

End Driver.

End Newvm.

(** ** Scenarios for the driver *)

Module VmScenario.

Import Newvm.
Local Open Scope Q_scope.

(** A host that knows the machine [vm0]; every other monitor command
    fails with [libvirtError]; a screenshot arrives in two chunks, and
    what the stream holds after its end is not read; any file that is not
    empty decodes to an image 640 wide and 480 high. *)
Definition flaky : host :=
  Host (fun u => if String.eqb u "vm0" then Some (Domain 1) else None)
       (fun n => if Nat.even n then Response "{}" else RaisesLibvirtError)
       (fun _ => Some [[Byte.x89; Byte.x50]; [Byte.x4e; Byte.x47]; [];
                       [Byte.x00]])
       (fun _ => true) (fun _ => true)
       (fun bytes => match bytes with
                     | [] => None
                     | _ => Some (Image 480 640 3 [])
                     end).

(** The object after [__init__], and after a successful [try_load]. *)
Definition fresh : vmstate := VmState None 0 0 ∅ [].
Definition loaded : vmstate := VmState (Some (Domain 1)) 0 0 ∅ [].

(** A move to the middle of the screen, and a payload without a pause. *)
Definition to_middle : payload :=
  {[ "x_rel"%string := VNum (1 # 2); "y_rel"%string := VNum (1 # 2);
     "duration_s"%string := VNum (1 # 4) ]}.
Definition no_pause : payload := {[ "value"%string := VStr "a" ]}.

End VmScenario.

(** ** Further vocabulary for [StagesSystem] *)

Module More.

(** The events of the synchronisation loop: screenshots, telemetry and
    sleeps, but no input to the machine. *)
Definition sync_event (e : event) : bool :=
  match e with
  | Machine (Effects.take_screenshot _) => true
  | Machine _ => false
  | UpdatePlot _ _ _ _ _ _ => true
  | Sleep _ => true
  end.

(** A computation that adds events of the synchronisation loop only. *)
Definition only_sync {A} (m : M A) : Prop :=
  forall s, exists evs,
    trace (snd (m s)) = trace s ++ evs /\
    forallb sync_event evs = true.

(** A computation that keeps the number of clock readings. *)
Definition keeps_ticks {A} (m : M A) : Prop :=
  forall s, ticks (snd (m s)) = ticks s.

(** A descriptor of two kinds at once. *)
Definition click_and_type : action :=
  {[ "mouse_click"%string := key "left";
     "keyboard_text"%string := key "abc" ]}.

(** A stage with a descriptor of no known kind between two good ones. *)
Definition half_good : stage :=
  Stage (VStr "half")
        [ {[ "mouse_click"%string := key "left" ]};
          {[ "wait"%string := key "1" ]};
          {[ "keyboard_key"%string := key "ret" ]} ]
        10 [to_end].

(** A script whose only stage names itself as the next stage. *)
Definition again : stage :=
  Stage (VStr "again") [] 10 [Subpath "login.png" 1 (1 # 2) (VStr "again")].
Definition looping : stages := Stages [again].


End More.
Export More.

(** Runs the first computation of a chain of the driver with the equation
    that says how it ends. *)
Tactic Notation "vm_with" uconstr(E) :=
  unfold Newvm.vbind at 1; rewrite E; cbv beta iota.
(** ** Properties of the scorer *)

Section ScorerFacts.

Local Open Scope Q_scope.

Lemma py_min_le_r (a b : Q) : py_min a b <= b.
Proof.
  unfold py_min. destruct (Qle_bool a b) eqn:E.
  - now apply Qle_bool_iff.
  - apply Qle_refl.
Qed.

Lemma py_min_le_l (a b : Q) : py_min a b <= a.
Proof.
  unfold py_min. destruct (Qle_bool a b) eqn:E.
  - apply Qle_refl.
  - destruct (Qlt_le_dec b a) as [H | H].
    + now apply Qlt_le_weak.
    + apply Qle_bool_iff in H. congruence.
Qed.

(** [__img_mse] fails only on arrays of different shapes. *)
Lemma img_mse_same_shape (cur ref : image) :
  same_shape cur ref = true ->
  exists mse dif, img_mse cur ref = Some (mse, dif) /\ mse <= 10.
Proof.
  intros Hs. unfold img_mse, cv2_subtract. rewrite Hs.
  eexists _, _. split; [reflexivity |]. apply py_min_le_r.
Qed.

Lemma resize_same_shape (P : primitives) (cur ref : image) :
  resize_shape P -> chans cur = chans ref ->
  same_shape (cv2_resize P cur (cols ref) (rows ref)) ref = true.
Proof.
  intros HP Hc. destruct (HP cur (cols ref) (rows ref)) as (Hr & Hw & Hk).
  unfold same_shape. rewrite Hr, Hw, Hk, Hc.
  now rewrite !Nat.eqb_refl.
Qed.

(** The capture is resized to the reference's width and height before it
    is scored. *)
Lemma comp_images_resizes (P : primitives) (cur ref : image) :
  comp_images P cur ref =
  match img_mse (cv2_resize P cur (cols ref) (rows ref)) ref with
  | Some (mse, dif) =>
      match ssimFunc P (cv2_resize P cur (cols ref) (rows ref)) ref with
      | Some ssim => Some (mse, ssim, dif)
      | None => None
      end
  | None => None
  end.
Proof. unfold comp_images. now destruct (img_mse _ ref) as [[m d] |]. Qed.

Lemma lab_resize_shape : resize_shape lab.
Proof. intros img w h. repeat split. Qed.

Lemma lab_ssim_window : ssim_window lab.
Proof.
  intros a b Hs. unfold lab; cbn [ssimFunc]. rewrite Hs. cbn [negb orb].
  destruct (Nat.ltb_spec (rows b) 7) as [Hr | Hr]; cbn [orb].
  - split; [intros _; now left | reflexivity].
  - destruct (Nat.ltb_spec (cols b) 7) as [Hc | Hc].
    + split; [intros _; now right | reflexivity].
    + split; [discriminate | intros [H | H]; lia].
Qed.

(** On a reference image of at least 7 by 7 pixels and a capture with as
    many channels, the scorer returns a score triple. *)
Lemma comp_images_returns (P : primitives) (cur ref : image) :
  resize_shape P -> ssim_window P ->
  chans cur = chans ref ->
  (7 <= rows ref)%nat -> (7 <= cols ref)%nat ->
  exists mse ssim dif, comp_images P cur ref = Some (mse, ssim, dif).
Proof.
  intros HP HS Hc Hr Hw.
  pose proof (resize_same_shape P cur ref HP Hc) as Hsame.
  destruct (img_mse_same_shape _ _ Hsame) as (mse & dif & E & _).
  rewrite comp_images_resizes, E.
  destruct (ssimFunc P (cv2_resize P cur (cols ref) (rows ref)) ref)
    as [ssim |] eqn:Es; [eauto |].
  apply (HS _ _ Hsame) in Es. lia.
Qed.

(** C8 (clamp law).  Whatever score triple the scorer returns for a
    capture and a non-empty reference image, its mseScore is at most 10. *)
Theorem mse_clamp_law (P : primitives) (cur ref : image) (mse ssim : Q)
    (dif : image) :
  (0 < rows ref * cols ref)%nat ->
  comp_images P cur ref = Some (mse, ssim, dif) ->
  mse <= 10.
Proof.
  intros _. rewrite comp_images_resizes. unfold img_mse.
  destruct (cv2_subtract _ ref) as [d |]; [| discriminate].
  destruct (ssimFunc P _ ref); [| discriminate].
  intros [= <- _ _]. apply py_min_le_r.
Qed.

Lemma mse_clamp_law_witness :
  comp_images lab bright black
  = Some (10, 13 # 15, Image 7 7 3 (repeat 4%Z 147)) /\
  10 <= 10.
Proof.
  assert (E : comp_images lab bright black
              = Some (10, 13 # 15, Image 7 7 3 (repeat 4%Z 147)))
    by (vm_compute; reflexivity).
  split; [exact E |].
  apply (mse_clamp_law lab bright black 10 (13 # 15)
           (Image 7 7 3 (repeat 4%Z 147))).
  - simpl. lia.
  - exact E.
Defined.

(** C7.  [__img_mse] is not the mean square error of its two images.
    A capture that is darker than the reference by one level in every
    channel scores 0, where the sum of the squared differences over the
    pixel count is 3; a capture brighter by 16 levels scores 0 as well,
    where the mean square error is 768, clamped to 10. *)
Theorem img_mse_saturates_and_wraps :
  (exists mse ssim dif,
     comp_images lab black dim = Some (mse, ssim, dif) /\ mse == 0) /\
  mse_of_spec black dim == 3 /\
  (exists mse ssim dif,
     comp_images lab grey16 black = Some (mse, ssim, dif) /\ mse == 0) /\
  mse_of_spec grey16 black == 10.
Proof.
  split; [| split; [| split]].
  - eexists _, _, _. split; [vm_compute; reflexivity | reflexivity].
  - vm_compute. reflexivity.
  - eexists _, _, _. split; [vm_compute; reflexivity | reflexivity].
  - vm_compute. reflexivity.
Qed.

End ScorerFacts.

(** ** The monad *)

Section MonadFacts.

Local Open Scope sm_scope.

Lemma bind_ret {A B} (m : M A) (k : A -> M B) (s s' : state) (a : A) :
  m s = (Ret a, s') -> bind m k s = k a s'.
Proof. intros E. unfold bind. now rewrite E. Qed.

Lemma bind_exit {A B} (m : M A) (k : A -> M B) (s s' : state) (c : Z) :
  m s = (SysExit c, s') -> bind m k s = (SysExit c, s').
Proof. intros E. unfold bind. now rewrite E. Qed.

Lemma bind_inv_ret {A B} (m : M A) (k : A -> M B) (s s' : state) (b : B) :
  bind m k s = (Ret b, s') ->
  exists a s1, m s = (Ret a, s1) /\ k a s1 = (Ret b, s').
Proof.
  unfold bind. destruct (m s) as [[a | c | e |] s1]; intros E;
    try discriminate. eauto.
Qed.

End MonadFacts.

(** ** Properties of the action dispatcher *)

Section DispatcherFacts.

Local Open Scope sm_scope.

Lemma only_kind_other (a : action) (kind k : string) :
  only_kind a kind -> k ∈ known_kinds -> k ≠ kind -> a !! k = None.
Proof.
  intros H Hk Hne. unfold only_kind in H. rewrite Forall_forall in H.
  destruct (H k Hk) as [-> | E]; [congruence | exact E].
Qed.

(** For a descriptor of one kind the dispatcher asks the machine for the
    method of that kind, and for nothing else. *)
Lemma perform_action_kind (w : world) (a : action) (kind : string)
    (p : payload) (c : call) (s : state) :
  a !! kind = Some p -> only_kind a kind -> capability kind p = Some c ->
  perform_action w a s = machine_call w (method_of kind) c s.
Proof.
  intros Hp Honly Hc.
  assert (Hnone : forall k, k ∈ known_kinds -> k ≠ kind -> a !! k = None)
    by (intros k; now apply only_kind_other).
  unfold capability in Hc. unfold perform_action.
  dispatch_kind "mouse_move"%string.
  dispatch_kind "mouse_click"%string.
  dispatch_kind "keyboard_key"%string.
  dispatch_kind "keyboard_text"%string.
  dispatch_kind "command"%string.
  discriminate.
Qed.

(** On a machine that has the method, a descriptor of one kind leads to
    one call, the one of its kind. *)
Lemma perform_action_serves (w : world) (a : action) (c : call) (s : state) :
  serves w a c ->
  perform_action w a s =
  (Ret tt, State (shots s) (ticks s) (trace s ++ [Machine c])).
Proof.
  intros (kind & p & Hp & Honly & Hc & Hhas).
  rewrite (perform_action_kind w a kind p c s Hp Honly Hc).
  unfold machine_call. fold (attribute_of kind). now rewrite Hhas.
Qed.

(** A descriptor the dispatcher cannot serve stops it, and no call is
    made for it. *)
Lemma perform_action_invalid (w : world) (a : action) (s : state) :
  Forall (fun k => a !! k = None) known_kinds ->
  perform_action w a s = (Raise (InvalidStageAction a), s).
Proof.
  intros H. unfold known_kinds in H.
  repeat match goal with
  | H : Forall _ (_ :: _) |- _ => apply Forall_cons_1 in H; destruct H
  end.
  unfold perform_action.
  repeat match goal with E : a !! _ = None |- _ => rewrite E; clear E end.
  reflexivity.
Qed.

Lemma perform_action_refused (w : world) (a : action) (e : exn) (s : state) :
  refused w a e -> perform_action w a s = (Raise e, s).
Proof.
  intros [[H ->] | (kind & p & c & Hp & Honly & Hc & Hhas & ->)].
  - now apply perform_action_invalid.
  - rewrite (perform_action_kind w a kind p c s Hp Honly Hc).
    unfold machine_call. fold (attribute_of kind). now rewrite Hhas.
Qed.

Lemma perform_actions_serves (w : world) (acts : list action)
    (calls : list call) (s : state) :
  Forall2 (serves w) acts calls ->
  perform_actions w acts s =
  (Ret tt, State (shots s) (ticks s) (trace s ++ map Machine calls)).
Proof.
  intros H. revert s. induction H as [| a c acts calls Ha _ IH]; intros s.
  - simpl. unfold ret. rewrite app_nil_r. now destruct s.
  - simpl. rewrite (bind_ret _ _ _ _ _ (perform_action_serves w a c s Ha)).
    rewrite IH. simpl. now rewrite <- app_assoc.
Qed.

(** What the dispatcher does for a machine that has the four methods
    under the names it asks for: one call per descriptor, in declared
    order, each the call of the descriptor's kind. *)
Lemma served_descriptors_are_called_in_order (w : world) (stageObj : stage)
    (calls : list call) (s : state) :
  Forall2 (serves w) (actions stageObj) calls ->
  perform_stage_actions w stageObj s =
  (Ret tt, State (shots s) (ticks s) (trace s ++ map Machine calls)).
Proof. apply perform_actions_serves. Qed.

Example dispatcher_on_a_test_double :
  perform_stage_actions (stand_in black) typing initial =
  (Ret tt,
   State 0 0
     (map Machine
        [send_mouse_move_action move;
         send_mouse_click_action (key "left");
         send_keyboard_key_action (key "ret");
         send_keyboard_text_action (key "abc");
         send_keyboard_text_action (key "reboot")])).
Proof. vm_compute. reflexivity. Qed.

(** The names that [newvm] gives its four input methods, and the names
    under which the dispatcher asks for them. *)
Lemma newvm_lacks_dispatcher_names :
  Forall (fun kind => newvm_hasattr (attribute_of kind) = false) known_kinds /\
  Forall (fun attr => newvm_hasattr attr = true)
         ["send_mouse_move_action"; "send_mouse_click_action";
          "send_keyboard_key_action"; "_newvm__send_keyboard_text_action";
          "take_screenshot"]%string.
Proof.
  split; repeat first [apply List.Forall_cons | apply List.Forall_nil];
    vm_compute; reflexivity.
Qed.

(** C4.  The dispatcher makes no machine call on a [newvm].  Written
    inside [class StagesSystem], [self.machine.__send_mouse_move_action]
    asks the machine for [_StagesSystem__send_mouse_move_action] (and
    likewise for the three other methods); [newvm] has its methods under
    the names [send_mouse_move_action], [send_mouse_click_action],
    [send_keyboard_key_action] and [_newvm__send_keyboard_text_action].
    So for the stage [typing], with one descriptor of every kind, the
    dispatcher raises [AttributeError] at the first descriptor and makes
    no call; and every descriptor of one known kind, whichever, ends in
    [AttributeError] with nothing sent. *)
Theorem dispatcher_finds_no_method_on_newvm :
  perform_stage_actions (showing black) typing initial =
  (Raise (AttributeError "_StagesSystem__send_mouse_move_action"), initial) /\
  newvm_hasattr "send_mouse_move_action" = true /\
  newvm_hasattr "_StagesSystem__send_mouse_move_action" = false /\
  (forall (shown : image) (a : action) (c : call) (s : state),
     describes a c ->
     exists attr,
       perform_action (showing shown) a s = (Raise (AttributeError attr), s)).
Proof.
  split; [vm_compute; reflexivity |].
  split; [vm_compute; reflexivity |].
  split; [vm_compute; reflexivity |].
  intros shown a c s (kind & p & Hp & Honly & Hc).
  exists (attribute_of kind). apply perform_action_refused. right.
  exists kind, p, c. repeat split; try assumption.
  destruct newvm_lacks_dispatcher_names as [H _].
  rewrite Forall_forall in H. apply H.
  unfold capability in Hc. unfold known_kinds.
  repeat match type of Hc with
  | (if String.eqb kind ?k then _ else _) = _ =>
      destruct (String.eqb_spec kind k) as [-> | _]; [set_solver |]
  end.
  discriminate.
Qed.

End DispatcherFacts.

(** ** Properties of the synchronisation loop *)

Section LoadingFacts.

Local Open Scope sm_scope.

(** The loading loop stops at the first bad reference file, with exit
    code 2 when it is missing and 3 when it is not a regular file. *)
Lemma load_refs_bad (w : world) (paths : list subpath) (bad : subpath)
    (s : state) :
  first_bad w paths = Some bad ->
  load_refs w paths s =
  (SysExit (if path_exists w (checkFile bad) then 3 else 2), s).
Proof.
  unfold first_bad. induction paths as [| sp rest IH]; simpl; [discriminate |].
  destruct (path_exists w (checkFile sp)) eqn:Ee; simpl.
  - destruct (path_isfile w (checkFile sp)) eqn:Ef; simpl.
    + intros H. unfold bind. now rewrite (IH H).
    + intros [= <-]. now rewrite Ee.
  - intros [= <-]. now rewrite Ee.
Qed.

(** With every reference file in place, all of them are read, in order. *)
Lemma load_refs_good (w : world) (paths : list subpath) (s : state) :
  first_bad w paths = None ->
  load_refs w paths s =
  (Ret (map (fun sp => cv2_imread w (checkFile sp)) paths), s).
Proof.
  unfold first_bad. induction paths as [| sp rest IH]; simpl; [reflexivity |].
  destruct (path_exists w (checkFile sp)); simpl; [| discriminate].
  destruct (path_isfile w (checkFile sp)); simpl; [| discriminate].
  intros H. unfold bind. now rewrite (IH H).
Qed.

Lemma first_bad_exists (w : world) (paths : list subpath) :
  (exists sp, sp ∈ paths /\
     (path_exists w (checkFile sp) = false \/
      path_isfile w (checkFile sp) = false)) ->
  exists bad, first_bad w paths = Some bad.
Proof.
  intros (sp & Hin & Hbad). unfold first_bad.
  destruct (find _ paths) as [bad |] eqn:E; [eauto |].
  apply list_elem_of_In in Hin.
  pose proof (find_none _ _ E sp Hin) as Hn. simpl in Hn.
  destruct Hbad as [H | H]; rewrite H in Hn; simpl in Hn;
    [discriminate | now rewrite orb_true_r in Hn].
Qed.

(** C6.  If some [checkFile] of the stage is missing or is not a regular
    file, [__wait_for_stage_done] ends in [sys.exit] before its polling
    loop: for [bad], the first such candidate in declared order, the exit
    code is 2 when the file is missing and 3 when it exists but is no
    regular file; no screenshot has been taken and no event has happened
    (only the clock has been read once). *)
Theorem bad_reference_aborts_before_polling (fuel : nat) (self : StagesSystem.t)
    (P : primitives) (w : world) (stageObj : stage) (s : state) :
  (exists sp, sp ∈ pathsList stageObj /\
     (path_exists w (checkFile sp) = false \/
      path_isfile w (checkFile sp) = false)) ->
  exists bad,
    first_bad w (pathsList stageObj) = Some bad /\
    wait_for_stage_done fuel self P w stageObj s =
    (SysExit (if path_exists w (checkFile bad) then 3 else 2),
     State (shots s) (S (ticks s)) (trace s)).
Proof.
  intros H. destruct (first_bad_exists _ _ H) as [bad Hbad].
  exists bad. split; [exact Hbad |].
  unfold wait_for_stage_done, bind, py_time.
  now rewrite (load_refs_bad _ _ _ _ Hbad).
Qed.

Lemma bad_reference_aborts_before_polling_witness :
  exists bad,
    first_bad (some_missing black) (pathsList broken) = Some bad /\
    wait_for_stage_done 5 vm0 lab (some_missing black) broken initial =
    (SysExit (if path_exists (some_missing black) (checkFile bad) then 3 else 2),
     State 0 1 []).
Proof.
  apply (bad_reference_aborts_before_polling 5 vm0 lab (some_missing black)
           broken initial).
  exists (Subpath "missing.png" 1 (1 # 2) (VStr "None")).
  split; [| left; reflexivity].
  unfold broken; simpl. set_solver.
Defined.

(** The two cases on the scenario: a missing file gives 2, a directory
    gives 3. *)
Example missing_file_exits_2 :
  wait_for_stage_done 5 vm0 lab (some_missing black) broken initial =
  (SysExit 2, State 0 1 []).
Proof. reflexivity. Qed.

Example directory_exits_3 :
  wait_for_stage_done 5 vm0 lab (some_missing black)
    (Stage (VStr "broken") [] 10 [Subpath "/tmp" 1 (1 # 2) (VStr "None")])
    initial =
  (SysExit 3, State 0 1 []).
Proof. reflexivity. Qed.

End LoadingFacts.

(** ** Telemetry *)

Section TelemetryFacts.

Local Open Scope sm_scope.

Lemma quiet_app (l1 l2 : list event) : quiet (l1 ++ l2) = quiet l1 ++ quiet l2.
Proof. apply List.filter_app. Qed.

Lemma agree_ret {A} (a : A) : agree (ret a) (ret a).
Proof. intros s1 s2 H. now split. Qed.

Lemma agree_sys_exit {A} (c : Z) : agree (@sys_exit A c) (sys_exit c).
Proof. intros s1 s2 H. now split. Qed.

Lemma agree_raise {A} (e : exn) : agree (@raise A e) (raise e).
Proof. intros s1 s2 H. now split. Qed.

Lemma agree_out_of_fuel {A} : agree (@out_of_fuel A) out_of_fuel.
Proof. intros s1 s2 H. now split. Qed.

Lemma agree_emit (e : event) : agree (emit e) (emit e).
Proof.
  intros s1 s2 (Hs & Ht & Hq). split; [reflexivity |].
  repeat split; simpl; try assumption.
  now rewrite !quiet_app, Hq.
Qed.

Lemma agree_plot (e : event) : is_plot e = true -> agree (emit e) (ret tt).
Proof.
  intros He s1 s2 (Hs & Ht & Hq). split; [reflexivity |].
  repeat split; simpl; try assumption.
  rewrite quiet_app, Hq. simpl. rewrite He. simpl. apply app_nil_r.
Qed.

Lemma agree_py_time (w : world) : agree (py_time w) (py_time w).
Proof.
  intros s1 s2 (Hs & Ht & Hq). unfold py_time; simpl. rewrite Ht.
  split; [reflexivity |]. repeat split; simpl; congruence.
Qed.

Lemma agree_capture (w : world) (p : string) : agree (capture w p) (capture w p).
Proof.
  intros s1 s2 (Hs & Ht & Hq). unfold capture; simpl. rewrite Hs.
  split; [reflexivity |]. repeat split; simpl; try congruence.
  now rewrite !quiet_app, Hq.
Qed.

Lemma agree_bind {A B} (m1 m2 : M A) (k1 k2 : A -> M B) :
  agree m1 m2 -> (forall a, agree (k1 a) (k2 a)) ->
  agree (bind m1 k1) (bind m2 k2).
Proof.
  intros Hm Hk s1 s2 H. destruct (Hm s1 s2 H) as [Ho Hs].
  unfold bind.
  destruct (m1 s1) as [o1 t1], (m2 s2) as [o2 t2]; simpl in *. subst o2.
  destruct o1; try (now split). now apply Hk.
Qed.

Lemma agree_load_refs (w : world) (paths : list subpath) :
  agree (load_refs w paths) (load_refs w paths).
Proof.
  induction paths as [| sp rest IH]; simpl.
  - apply agree_ret.
  - destruct (negb (path_exists w (checkFile sp))); [apply agree_sys_exit |].
    destruct (negb (path_isfile w (checkFile sp))); [apply agree_sys_exit |].
    apply agree_bind; [exact IH | intros; apply agree_ret].
Qed.

(** One polling iteration's comparisons decide alike with and without
    the sink. *)
Lemma agree_scan (u : string) (P : primitives) (sp : option subpath)
    (curImg : image) (refs : list image) (index : nat) :
  agree (scan (Make u true) P sp curImg refs index)
        (scan (Make u false) P sp curImg refs index).
Proof.
  revert index. induction refs as [| refImg rest IH]; intros index; simpl.
  - apply agree_ret.
  - destruct (comp_images P curImg refImg) as [[[mse ssim] dif] |];
      [| apply agree_raise].
    destruct sp as [sp |]; [| apply agree_raise].
    apply agree_bind; [now apply agree_plot |].
    intros _. destruct (_ >=? 1)%Z; [apply agree_ret | apply IH].
Qed.

Lemma agree_poll (fuel : nat) (u : string) (P : primitives) (w : world)
    (stageObj : stage) (timeoutinS start : Q) (refs : list image) :
  agree (poll fuel (Make u true) P w stageObj timeoutinS start refs)
        (poll fuel (Make u false) P w stageObj timeoutinS start refs).
Proof.
  induction fuel as [| fuel IH]; simpl.
  - apply agree_out_of_fuel.
  - apply agree_bind; [apply agree_capture |]. intros curImg.
    apply agree_bind; [apply agree_scan |]. intros resultindex.
    destruct (negb (resultindex =? -1)%Z).
    + destruct (pathsList stageObj !! Z.to_nat resultindex);
        [apply agree_ret | apply agree_raise].
    + apply agree_bind; [apply agree_py_time |]. intros now.
      destruct (Qle_bool now (start + timeoutinS)); [apply agree_sys_exit |].
      apply agree_bind; [apply agree_emit | intros _; exact IH].
Qed.

Lemma agree_wait (fuel : nat) (u : string) (P : primitives) (w : world)
    (stageObj : stage) :
  agree (wait_for_stage_done fuel (Make u true) P w stageObj)
        (wait_for_stage_done fuel (Make u false) P w stageObj).
Proof.
  unfold wait_for_stage_done.
  apply agree_bind; [apply agree_py_time |]. intros start.
  apply agree_bind; [apply agree_load_refs |]. intros refs.
  apply agree_poll.
Qed.

Lemma silent_pure {A} (m : M A) :
  (forall s, trace (snd (m s)) = trace s) -> silent m.
Proof. intros H s Hs. now rewrite H. Qed.

Lemma silent_emit (e : event) : is_plot e = false -> silent (emit e).
Proof.
  intros He s Hs. simpl. rewrite quiet_app, Hs. simpl. now rewrite He.
Qed.

Lemma silent_bind {A B} (m : M A) (k : A -> M B) :
  silent m -> (forall a, silent (k a)) -> silent (bind m k).
Proof.
  intros Hm Hk s Hs. specialize (Hm s Hs). unfold bind.
  destruct (m s) as [[a | c | e |] s1]; simpl in *; try assumption.
  now apply Hk.
Qed.

Lemma silent_load_refs (w : world) (paths : list subpath) :
  silent (load_refs w paths).
Proof.
  induction paths as [| sp rest IH]; simpl.
  - now apply silent_pure.
  - destruct (negb (path_exists w (checkFile sp))); [now apply silent_pure |].
    destruct (negb (path_isfile w (checkFile sp))); [now apply silent_pure |].
    apply silent_bind; [exact IH | intros; now apply silent_pure].
Qed.

Lemma silent_scan (u : string) (P : primitives) (sp : option subpath)
    (curImg : image) (refs : list image) (index : nat) :
  silent (scan (Make u false) P sp curImg refs index).
Proof.
  revert index. induction refs as [| refImg rest IH]; intros index; simpl.
  - now apply silent_pure.
  - destruct (comp_images P curImg refImg) as [[[mse ssim] dif] |];
      [| now apply silent_pure].
    destruct sp as [sp |]; [| now apply silent_pure].
    apply silent_bind; [now apply silent_pure |].
    intros _. destruct (_ >=? 1)%Z; [now apply silent_pure | apply IH].
Qed.

Lemma silent_poll (fuel : nat) (u : string) (P : primitives) (w : world)
    (stageObj : stage) (timeoutinS start : Q) (refs : list image) :
  silent (poll fuel (Make u false) P w stageObj timeoutinS start refs).
Proof.
  induction fuel as [| fuel IH]; simpl.
  - now apply silent_pure.
  - apply silent_bind; [now apply silent_emit |]. intros curImg.
    apply silent_bind; [apply silent_scan |]. intros resultindex.
    destruct (negb (resultindex =? -1)%Z).
    + destruct (pathsList stageObj !! Z.to_nat resultindex);
        now apply silent_pure.
    + apply silent_bind; [now apply silent_pure |]. intros now.
      destruct (Qle_bool now (start + timeoutinS)); [now apply silent_pure |].
      apply silent_bind; [now apply silent_emit | intros _; exact IH].
Qed.

Lemma silent_wait (fuel : nat) (u : string) (P : primitives) (w : world)
    (stageObj : stage) :
  silent (wait_for_stage_done fuel (Make u false) P w stageObj).
Proof.
  unfold wait_for_stage_done.
  apply silent_bind; [now apply silent_pure |]. intros start.
  apply silent_bind; [apply silent_load_refs |]. intros refs.
  apply silent_poll.
Qed.

(** The same holds for a whole run of the orchestrator. *)
Lemma agree_machine_call (w : world) (name : string) (c : call) :
  agree (machine_call w name c) (machine_call w name c).
Proof.
  unfold machine_call. cbv zeta.
  destruct (machine_hasattr w _); [apply agree_emit | apply agree_raise].
Qed.

Lemma agree_perform_actions (w : world) (acts : list action) :
  agree (perform_actions w acts) (perform_actions w acts).
Proof.
  induction acts as [| a rest IH]; simpl; [apply agree_ret |].
  apply agree_bind; [| intros _; exact IH].
  unfold perform_action.
  repeat match goal with
  | |- agree (match ?o with _ => _ end) _ => destruct o
  end;
  first [apply agree_raise | apply agree_machine_call].
Qed.

Lemma agree_run_stage (fuel : nat) (u : string) (P : primitives) (w : world)
    (stageObj : stage) :
  agree (run_stage fuel (Make u true) P w stageObj)
        (run_stage fuel (Make u false) P w stageObj).
Proof.
  unfold run_stage.
  apply agree_bind; [apply agree_py_time |]. intros start.
  apply agree_bind; [apply agree_wait |]. intros subPath.
  apply agree_bind; [apply agree_perform_actions |]. intros _.
  apply agree_bind; [apply agree_py_time |]. intros finish.
  apply agree_ret.
Qed.

Lemma agree_run_stages (rounds fuel : nat) (u : string) (P : primitives)
    (w : world) (stagesObj : stages) :
  agree (run_stages rounds fuel (Make u true) P w stagesObj)
        (run_stages rounds fuel (Make u false) P w stagesObj).
Proof.
  unfold run_stages.
  destruct (stagesList stagesObj !! 0%nat) as [cur |]; [| apply agree_raise].
  revert cur. induction rounds as [| rounds IH]; intros cur; simpl.
  - apply agree_out_of_fuel.
  - apply agree_bind; [apply agree_run_stage |]. intros n.
    destruct (py_eqb n (VStr "None")); [apply agree_ret |].
    apply agree_bind; [| intros st; apply IH].
    unfold select_stage. destruct (stagesList stagesObj) as [| st rest];
      [apply agree_ret |].
    destruct (py_eqb (name st) n); [apply agree_ret | apply agree_sys_exit].
Qed.

(** C9.  Telemetry does not interfere.  From the same starting point,
    [__wait_for_stage_done] with the sink enabled and with it disabled end
    the same way (the same returned Subpath, the same exit code, the same
    exception or the same exhaustion of fuel), after the same number of
    screenshots and clock readings; and the events of the run without the
    sink are exactly those of the run with it, less the telemetry. *)
Theorem telemetry_does_not_interfere (fuel : nat) (u : string) (P : primitives)
    (w : world) (stageObj : stage) (n t : nat) :
  let on := wait_for_stage_done fuel (Make u true) P w stageObj (State n t []) in
  let off := wait_for_stage_done fuel (Make u false) P w stageObj (State n t []) in
  fst on = fst off /\
  shots (snd on) = shots (snd off) /\
  ticks (snd on) = ticks (snd off) /\
  trace (snd off) = quiet (trace (snd on)).
Proof.
  intros on off.
  assert (Hsim : sim (State n t []) (State n t [])) by (now repeat split).
  destruct (agree_wait fuel u P w stageObj _ _ Hsim) as (Ho & Hs & Ht & Hq).
  pose proof (silent_wait fuel u P w stageObj (State n t []) eq_refl) as Hoff.
  repeat split; try assumption.
  fold on in Hq. fold off in Hq, Hoff. congruence.
Qed.

End TelemetryFacts.

(** ** Properties of the stage orchestrator *)

Section OrchestratorFacts.

Local Open Scope sm_scope.

Lemma py_eqb_None (n : pyval) :
  py_eqb n (VStr "None") = true <-> n = VStr "None".
Proof.
  destruct n as [| s | q]; simpl; split; try discriminate.
  - intros H. apply String.eqb_eq in H. now subst.
  - intros [= ->]. reflexivity.
Qed.

Lemma py_eqb_VStr (s : string) (n : pyval) :
  py_eqb (VStr s) n = true -> n = VStr s.
Proof.
  destruct n as [| t | q]; simpl; try discriminate.
  intros H. apply String.eqb_eq in H. now subst.
Qed.

(** A stage found by the lookup is not named ["None"] when the requested
    name is not ["None"]. *)
Lemma found_stage_not_None (st : stage) (n : pyval) :
  py_eqb (name st) n = true -> n <> VStr "None" -> name st <> VStr "None".
Proof.
  intros H Hn E. rewrite E in H. apply py_eqb_VStr in H. contradiction.
Qed.

(** The lookup looks at the first stage of the collection only. *)
Lemma select_stage_first (first : stage) (rest : list stage) (n : pyval)
    (cur : stage) (s : state) :
  select_stage (first :: rest) n cur s =
  if py_eqb (name first) n then (Ret first, s) else (SysExit 10, s).
Proof. simpl. now destruct (py_eqb (name first) n). Qed.

(** A name that no stage of a non-empty collection has ends the run with
    exit code 10, at once. *)
Lemma unresolved_name_exits_10 (l : list stage) (n : pyval) (cur : stage)
    (s : state) :
  l <> [] -> Forall (fun st => py_eqb (name st) n = false) l ->
  select_stage l n cur s = (SysExit 10, s).
Proof.
  intros Hne H. destruct l as [| first rest]; [contradiction |].
  apply Forall_cons_1 in H. destruct H as [H _].
  rewrite select_stage_first. now rewrite H.
Qed.

(** A stage the orchestrator moves to is the first of the collection, has
    the requested name, and is not named ["None"]. *)
Lemma transition_target (fuel : nat) (self : StagesSystem.t) (P : primitives)
    (w : world) (stagesObj : stages) (first : stage) (x y : stage * state) :
  stagesList stagesObj !! 0%nat = Some first ->
  transition fuel self P w stagesObj x y ->
  fst y = first /\ name (fst y) <> VStr "None".
Proof.
  intros Hfirst (n & s1 & _ & Hn & Hsel).
  destruct (stagesList stagesObj) as [| st rest]; [discriminate |].
  injection Hfirst as ->. rewrite select_stage_first in Hsel.
  destruct (py_eqb (name first) n) eqn:Ef; [| discriminate].
  injection Hsel as <- _. split; [reflexivity |].
  apply (found_stage_not_None _ _ Ef).
  intros E. apply py_eqb_None in E. congruence.
Qed.


(** Without a first stage [run_stages] raises [IndexError] and runs
    nothing. *)
Lemma run_stages_needs_a_stage (rounds fuel : nat) (self : StagesSystem.t)
    (P : primitives) (w : world) (s : state) :
  run_stages rounds fuel self P w (Stages []) s = (Raise IndexError, s).
Proof. reflexivity. Qed.



(** Python's [None] as a next-stage name is looked up like any name: here
    no stage is named so, and the run exits with 10. *)
Example null_next_stage_is_looked_up :
  run_stages 2 1 vm0 lab (showing black)
    (Stages [Stage (VStr "only") [] 10
               [Subpath "login.png" 1 (1 # 2) VNone]])
    initial
  = (SysExit 10, State 1 3 [Machine (take_screenshot "/tmp/vm0_check.png")]).
Proof. vm_compute. reflexivity. Qed.

(** C3.  A next-stage name that a stage of the collection has is not
    found unless that stage is the first of the list.  In the script
    [login; desktop] the stage [login] names [desktop] as the next stage;
    [desktop] is in the collection, and the run exits with code 10 after
    [login], with one screenshot taken. *)
Theorem existing_next_stage_is_not_found (rounds fuel : nat) :
  desktop ∈ stagesList script /\
  name desktop = VStr "desktop" /\
  nextStage to_desktop = VStr "desktop" /\
  run_stages (S rounds) (S fuel) vm0 lab (showing black) script initial
  = (SysExit 10, State 1 3 [Machine (take_screenshot "/tmp/vm0_check.png")]).
Proof.
  split; [unfold script; simpl; set_solver |].
  split; [reflexivity |]. split; [reflexivity |].
  vm_compute. reflexivity.
Qed.

End OrchestratorFacts.

(** ** The polling loop on the scenarios *)

Section PollingFacts.

Local Open Scope sm_scope.
Local Open Scope Q_scope.

Lemma scores_dim_black :
  exists dif, comp_images lab dim black = Some (147 # 49, 13 # 15, dif).
Proof. eexists. vm_compute. reflexivity. Qed.

Lemma scores_dim_dim :
  exists dif, comp_images lab dim dim = Some (0 # 49, 1, dif).
Proof. eexists. vm_compute. reflexivity. Qed.

Lemma Qltb_lt (a b : Q) : Qltb a b = true <-> a < b.
Proof.
  unfold Qltb. rewrite negb_true_iff. split.
  - intros H. destruct (Qlt_le_dec a b) as [Hlt | Hle]; [exact Hlt |].
    apply Qle_bool_iff in Hle. congruence.
  - intros H. destruct (Qle_bool b a) eqn:E; [| reflexivity].
    apply Qle_bool_iff in E. exfalso. exact (Qlt_not_le _ _ H E).
Qed.

(** The test of the loop is the conjunction of two strict comparisons. *)
Lemma passes_meets (P : primitives) (sp : subpath) (cur ref : image) :
  passes P sp cur ref = true <->
  exists mse ssim dif,
    comp_images P cur ref = Some (mse, ssim, dif) /\ meets sp mse ssim.
Proof.
  unfold passes, meets.
  destruct (comp_images P cur ref) as [[[mse ssim] dif] |].
  - rewrite andb_true_iff, !Qltb_lt. split.
    + intros H. now exists mse, ssim, dif.
    + intros (m & q & d & [= <- <- <-] & H). exact H.
  - split; [discriminate | intros (m & q & d & E & _); discriminate].
Qed.

(** Within one iteration the first reference image that passes the test
    decides, and the images after it are not compared.  The thresholds of
    the test are those of [sp], the same for every reference image. *)
Lemma scan_first_match (u : string) (P : primitives) (sp : subpath)
    (cur : image) (pre post : list image) (r : image) (index : nat)
    (s : state) :
  Forall (fun x => is_Some (comp_images P cur x) /\
                   passes P sp cur x = false) pre ->
  passes P sp cur r = true ->
  scan (Make u false) P (Some sp) cur (pre ++ r :: post) index s
  = (Ret (Z.of_nat (index + length pre)), s).
Proof.
  intros Hpre Hr. revert index.
  induction Hpre as [| x pre [[v Hx] Hno] _ IH]; intros index.
  - simpl. unfold passes in Hr.
    destruct (comp_images P cur r) as [[[mse ssim] dif] |]; [| discriminate].
    rewrite Hr. simpl. unfold bind, ret. simpl.
    now rewrite Nat.add_0_r.
  - simpl. unfold passes in Hno. rewrite Hx in Hno |- *.
    destruct v as [[mse ssim] dif]. rewrite Hno. simpl.
    unfold bind, ret. simpl scan in IH. rewrite IH.
    do 3 f_equal. simpl. lia.
Qed.

(** An iteration in which no reference image passes the test yields -1. *)
Lemma scan_no_match (u : string) (P : primitives) (sp : subpath)
    (cur : image) (refs : list image) (index : nat) (s : state) :
  Forall (fun x => is_Some (comp_images P cur x) /\
                   passes P sp cur x = false) refs ->
  scan (Make u false) P (Some sp) cur refs index s = (Ret (-1)%Z, s).
Proof.
  intros H. revert index.
  induction H as [| x refs [[v Hx] Hno] _ IH]; intros index; [reflexivity |].
  simpl. unfold passes in Hno. rewrite Hx in Hno |- *.
  destruct v as [[mse ssim] dif]. rewrite Hno. simpl.
  unfold bind, ret. apply IH.
Qed.

(** Whatever index an iteration yields, the reference image at that index
    passed the test, with the thresholds of the one candidate the loop
    holds in [subpath]. *)
Lemma scan_ret_inv (self : StagesSystem.t) (P : primitives)
    (o : option subpath) (cur : image) (refs : list image) (index : nat)
    (s s' : state) (z : Z) :
  scan self P o cur refs index s = (Ret z, s') ->
  z = (-1)%Z \/
  exists sp i r,
    o = Some sp /\ z = Z.of_nat (index + i) /\ refs !! i = Some r /\
    passes P sp cur r = true.
Proof.
  revert index s. induction refs as [| x refs IH]; intros index s; simpl.
  - intros [= <- _]. now left.
  - destruct (comp_images P cur x) as [[[mse ssim] dif] |] eqn:Ex;
      [| discriminate].
    destruct o as [sp |]; [| discriminate].
    intros H. apply bind_inv_ret in H. destruct H as ([] & s1 & _ & H).
    destruct (Qltb mse (checkMseLeq sp) && Qltb (checkSsimGeq sp) ssim)
      eqn:Et; simpl in H.
    + injection H as <- _. right. exists sp, 0%nat, x.
      repeat split; [f_equal; lia |]. unfold passes. now rewrite Ex.
    + apply IH in H. destruct H as [-> | (sp' & i & r & E & -> & Hr & Hp)];
        [now left |].
      right. exists sp', (S i), r. repeat split; try assumption.
      f_equal. lia.
Qed.

Lemma load_refs_ret_inv (w : world) (paths : list subpath)
    (refs : list image) (s s' : state) :
  load_refs w paths s = (Ret refs, s') ->
  refs = map (fun sp => cv2_imread w (checkFile sp)) paths.
Proof.
  destruct (first_bad w paths) as [bad |] eqn:E.
  - rewrite (load_refs_bad _ _ _ _ E). discriminate.
  - rewrite (load_refs_good _ _ _ E). now intros [= <- _].
Qed.

Lemma poll_ret_inv (fuel : nat) (self : StagesSystem.t) (P : primitives)
    (w : world) (stageObj : stage) (timeoutinS start : Q)
    (refs : list image) (s s' : state) (cand : subpath) :
  poll fuel self P w stageObj timeoutinS start refs s = (Ret cand, s') ->
  exists sp i r k,
    last (pathsList stageObj) = Some sp /\
    pathsList stageObj !! i = Some cand /\ refs !! i = Some r /\
    passes P sp (display w k) r = true.
Proof.
  revert s. induction fuel as [| fuel IH]; intros s; [discriminate |].
  cbn [poll]. intros H.
  apply bind_inv_ret in H. destruct H as (cur & s1 & Hcap & H).
  apply bind_inv_ret in H. destruct H as (z & s2 & Hscan & H).
  injection Hcap as <- _.
  destruct (negb (z =? -1)%Z) eqn:Ez.
  - apply scan_ret_inv in Hscan.
    destruct Hscan as [-> | (sp & i & r & Hl & -> & Hr & Hp)];
      [discriminate |].
    simpl in H. rewrite Nat2Z.id in H.
    destruct (pathsList stageObj !! i) as [c |] eqn:Ec; [| discriminate].
    injection H as <- _. now exists sp, i, r, (shots s).
  - apply bind_inv_ret in H. destruct H as (now & s3 & _ & H).
    destruct (Qle_bool now (start + timeoutinS)); [discriminate |].
    apply bind_inv_ret in H. destruct H as ([] & s4 & _ & H).
    now apply IH in H.
Qed.

(** What the loop guarantees about the candidate it returns: at some
    capture, the scores against the candidate's own reference image met
    the thresholds of the last candidate of the stage. *)
Lemma returned_candidate_meets_last_thresholds (fuel : nat)
    (self : StagesSystem.t) (P : primitives) (w : world) (stageObj : stage)
    (s s' : state) (cand : subpath) :
  wait_for_stage_done fuel self P w stageObj s = (Ret cand, s') ->
  exists sp k mse ssim dif,
    last (pathsList stageObj) = Some sp /\
    cand ∈ pathsList stageObj /\
    comp_images P (display w k) (cv2_imread w (checkFile cand))
    = Some (mse, ssim, dif) /\
    meets sp mse ssim.
Proof.
  unfold wait_for_stage_done. intros H.
  apply bind_inv_ret in H. destruct H as (start & s1 & _ & H).
  apply bind_inv_ret in H. destruct H as (refs & s2 & Hload & H).
  apply load_refs_ret_inv in Hload. subst refs.
  apply poll_ret_inv in H.
  destruct H as (sp & i & r & k & Hl & Hc & Hr & Hp).
  rewrite list_lookup_fmap, Hc in Hr. injection Hr as <-.
  apply passes_meets in Hp. destruct Hp as (mse & ssim & dif & E & Hm).
  exists sp, k, mse, ssim, dif. repeat split; try assumption.
  - now apply list_elem_of_lookup_2 in Hc.
  - apply Hm.
  - apply Hm.
Qed.

(** C1.  The loop returns a candidate whose own thresholds the capture
    does not satisfy.  The stage has the candidates [strict_login]
    (mse below 1) and [lenient_error] (mse below 5); the capture scores
    mse 3 and ssim 13/15 against the reference of [strict_login].  That
    fails the thresholds of [strict_login] and passes those of
    [lenient_error], the last candidate of the list, and the loop returns
    [strict_login] on its first iteration. *)
Theorem returned_candidate_fails_its_own_thresholds (fuel : nat) :
  fst (wait_for_stage_done (S fuel) vm0 lab (showing dim) login_or_error initial)
  = Ret strict_login /\
  exists mse ssim dif,
    comp_images lab (display (showing dim) 0)
                (cv2_imread (showing dim) (checkFile strict_login))
    = Some (mse, ssim, dif) /\
    ~ meets strict_login mse ssim /\
    meets lenient_error mse ssim.
Proof.
  split; [vm_compute; reflexivity |].
  destruct scores_dim_black as [dif E].
  exists (147 # 49), (13 # 15), dif. split; [exact E |]. split.
  - intros [H _]. vm_compute in H. discriminate.
  - split; reflexivity.
Qed.

(** C5.  Of two candidates that both satisfy their own thresholds in the
    same iteration, the loop returns the second.  The capture scores
    (3, 13/15) against the reference of [first_choice] (mse below 5) and
    (0, 1) against that of [second_choice] (mse below 1); the first pair is
    tested against the thresholds of [second_choice], the last candidate,
    and fails them. *)
Theorem first_of_two_matching_candidates_is_skipped (fuel : nat) :
  fst (wait_for_stage_done (S fuel) vm0 lab (showing dim) two_choices initial)
  = Ret second_choice /\
  (exists mse ssim dif,
     comp_images lab (display (showing dim) 0)
                 (cv2_imread (showing dim) (checkFile first_choice))
     = Some (mse, ssim, dif) /\ meets first_choice mse ssim) /\
  (exists mse ssim dif,
     comp_images lab (display (showing dim) 0)
                 (cv2_imread (showing dim) (checkFile second_choice))
     = Some (mse, ssim, dif) /\ meets second_choice mse ssim).
Proof.
  split; [vm_compute; reflexivity |]. split.
  - destruct scores_dim_black as [dif E].
    exists (147 # 49), (13 # 15), dif. split; [exact E |]. split; reflexivity.
  - destruct scores_dim_dim as [dif E].
    exists (0 # 49), 1, dif. split; [exact E |]. split; reflexivity.
Qed.

(** C2.  The timeout fires on the first unmatched iteration.  The stage
    [login] has a budget of 10 seconds and its one candidate is not matched
    by the capture; the clock reads 0 at the start of the loop and 1 after
    the first iteration, and the loop exits with code 5 there, after one
    screenshot and no sleep. *)
Theorem timeout_fires_on_first_unmatched_poll (fuel : nat) :
  wait_for_stage_done (S fuel) vm0 lab (showing dim) login initial
  = (SysExit 5, State 1 2 [Machine (take_screenshot "/tmp/vm0_check.png")]) /\
  time (showing dim) 1 - time (showing dim) 0 < timeoutS login.
Proof. split; [vm_compute; reflexivity | reflexivity]. Qed.

(** Past its budget the loop does not abort at all: with every reading
    of the clock 100 seconds after the start, it polls for as long as it is
    given fuel. *)
Lemma poll_past_budget_goes_on (fuel : nat) (s : state) :
  (1 <= ticks s)%nat ->
  fst (poll fuel vm0 lab (late dim) login 10 0 [black] s) = OutOfFuel.
Proof.
  revert s. induction fuel as [| fuel IH]; intros s Hs; [reflexivity |].
  destruct scores_dim_black as [dif E].
  cbn [poll]. unfold bind at 1. cbn [capture late display].
  unfold bind at 1. cbn [scan]. rewrite E.
  cbn [login pathsList last to_desktop checkMseLeq checkSsimGeq debugPlt vm0].
  unfold bind at 1.
  replace (Qltb (147 # 49) 1) with false by reflexivity.
  cbn [andb ret Z.geb Z.compare negb Z.eqb].
  unfold bind at 1. cbn [py_time time ticks].
  destruct (ticks s) as [| k] eqn:Ek; [lia |].
  replace (Qle_bool 100 (0 + 10)) with false by reflexivity.
  unfold bind at 1. cbn [py_sleep emit].
  apply IH. simpl. lia.
Qed.

Lemma no_abort_past_the_budget (fuel : nat) :
  fst (wait_for_stage_done fuel vm0 lab (late dim) login initial) = OutOfFuel.
Proof.
  unfold wait_for_stage_done, bind. cbn.
  apply poll_past_budget_goes_on. simpl. lia.
Qed.

End PollingFacts.

(** * Further properties *)

(** ** The machine driver *)

Module NewvmFacts.

Import Newvm.
Local Open Scope vm_scope.
Local Open Scope Q_scope.

Section Facts.

Variable conn : host.
Variable uuid : string.

Lemma vbind_ok {A B} (m : VM A) (k : A -> VM B) (s s' : vmstate) (a : A) :
  m s = (Ok a, s') -> vbind m k s = k a s'.
Proof. intros E. unfold vbind. now rewrite E. Qed.

Lemma vbind_err {A B} (m : VM A) (k : A -> VM B) (s s' : vmstate) (e : pyexn) :
  m s = (Err e, s') -> vbind m k s = (Err e, s').
Proof. intros E. unfold vbind. now rewrite E. Qed.

(** A monitor command that does not raise anything but [libvirtError]
    goes through: it is logged, counted, and the caller continues. *)
Lemma send_action_answers (cmd : json) (s : vmstate) :
  qemuMonitorCommand conn (monitor_calls s) <> RaisesOther ->
  exists r,
    send_action conn cmd s =
    (Ok r, VmState (vmDom s) (S (monitor_calls s)) (screenshots s) (files s)
                   (log s ++ [Monitor (vmDom s) cmd])).
Proof.
  intros H. unfold send_action.
  destruct (qemuMonitorCommand conn (monitor_calls s));
    [eauto | eauto | contradiction].
Qed.

Lemma getitem_some (kt : payload) (k : string) (v : pyval) (s : vmstate) :
  kt !! k = Some v -> getitem kt k s = (Ok v, s).
Proof. intros E. unfold getitem. now rewrite E. Qed.

Lemma getitem_none (kt : payload) (k : string) (s : vmstate) :
  kt !! k = None -> getitem kt k s = (Err (KeyError k), s).
Proof. intros E. unfold getitem. now rewrite E. Qed.

Lemma sleep_ok (d : Q) (s : vmstate) :
  0 <= d ->
  sleep (VNum d) s =
  (Ok tt, VmState (vmDom s) (monitor_calls s) (screenshots s) (files s)
                  (log s ++ [Slept d])).
Proof. intros H. unfold sleep. apply Qle_bool_iff in H. now rewrite H. Qed.

Lemma type_char_log (kt : payload) (d : Q) (c : Ascii.ascii) (s : vmstate) :
  monitor_answers conn ->
  kt !! "duration_s"%string = Some (VNum d) -> 0 <= d ->
  type_char conn kt c s =
  (Ok tt, VmState (vmDom s) (2 + monitor_calls s) (screenshots s) (files s)
                  (log s ++ typed (vmDom s) d c)).
Proof.
  intros Hm Hd Hpos. unfold type_char.
  destruct (send_action_answers
              (input_send_event [key_event true (JStr (String c EmptyString))])
              s (Hm _)) as [r1 E1].
  vm_with E1. vm_with (getitem_some _ _ _ _ Hd). vm_with (sleep_ok d _ Hpos).
  match goal with |- vbind (send_action conn ?cmd) _ ?st = _ =>
    destruct (send_action_answers cmd st (Hm _)) as [r2 E2]
  end.
  vm_with E2. vm_with (getitem_some _ _ _ _ Hd). rewrite (sleep_ok d _ Hpos).
  cbn. unfold typed. now rewrite <- !app_assoc.
Qed.

Lemma type_chars_log (kt : payload) (d : Q) (cs : list Ascii.ascii)
    (s : vmstate) :
  monitor_answers conn ->
  kt !! "duration_s"%string = Some (VNum d) -> 0 <= d ->
  type_chars conn kt cs s =
  (Ok tt, VmState (vmDom s) (2 * length cs + monitor_calls s) (screenshots s)
                  (files s) (log s ++ flat_map (typed (vmDom s) d) cs)).
Proof.
  intros Hm Hd Hpos. revert s. induction cs as [| c cs IH]; intros s.
  - simpl. unfold ok. rewrite app_nil_r. now destruct s.
  - cbn [type_chars].
    rewrite (vbind_ok _ _ _ _ _ (type_char_log kt d c s Hm Hd Hpos)).
    rewrite IH. cbn [vmDom monitor_calls screenshots files log flat_map].
    rewrite <- app_assoc.
    replace (2 * length (c :: cs) + monitor_calls s)%nat
      with (2 * length cs + (2 + monitor_calls s))%nat by (simpl; lia).
    reflexivity.
Qed.

Lemma length_chars (text : string) :
  length (list_ascii_of_string text) = String.length text.
Proof. induction text as [| c text IH]; simpl; congruence. Qed.

(** X1.  Typing is best effort and complete.  With a text and a
    non-negative pause in the payload, and a monitor that answers or fails
    with [libvirtError], [__send_keyboard_text_action] returns normally
    and has sent, for every character of the text in order, a key press, a
    pause, a key release and a pause: two monitor commands per character,
    whether or not single commands failed. *)
Theorem typing_sends_press_release_per_character (kt : payload)
    (text : string) (d : Q) (s : vmstate) :
  monitor_answers conn ->
  kt !! "value"%string = Some (VStr text) ->
  kt !! "duration_s"%string = Some (VNum d) ->
  0 <= d ->
  send_keyboard_text_action conn kt s =
  (Ok tt,
   VmState (vmDom s) (2 * String.length text + monitor_calls s)
           (screenshots s) (files s)
           (log s ++ flat_map (typed (vmDom s) d) (list_ascii_of_string text))).
Proof.
  intros Hm Hv Hd Hpos. unfold send_keyboard_text_action.
  vm_with (getitem_some _ _ _ s Hv).
  rewrite (type_chars_log kt d _ s Hm Hd Hpos).
  now rewrite length_chars.
Qed.

Lemma type_char_is_key (kt : payload) (c : Ascii.ascii) (s : vmstate) :
  type_char conn kt c s =
  send_keyboard_key_action conn
    (<["value"%string := VStr (String c EmptyString)]> kt) s.
Proof.
  unfold type_char, send_keyboard_key_action, vbind, getitem.
  rewrite lookup_insert_eq.
  rewrite lookup_insert_ne by discriminate.
  reflexivity.
Qed.

(** X2.  Typing a text is pressing its characters as keys.  For a payload
    whose value is a text, [__send_keyboard_text_action] does exactly what
    [send_keyboard_key_action] does when called once per character, in
    order, with that character as the value and the rest of the payload
    unchanged: the same commands, the same pauses, the same result, and
    the same exception at the same point if there is one. *)
Theorem typing_is_pressing_each_key (kt : payload) (text : string)
    (s : vmstate) :
  kt !! "value"%string = Some (VStr text) ->
  send_keyboard_text_action conn kt s =
  press_each conn kt (list_ascii_of_string text) s.
Proof.
  intros Hv. unfold send_keyboard_text_action.
  vm_with (getitem_some _ _ _ s Hv).
  generalize (list_ascii_of_string text). intros cs. revert s.
  induction cs as [| c cs IH]; intros s; [reflexivity |].
  cbn [type_chars press_each]. unfold vbind at 1 2.
  rewrite type_char_is_key.
  destruct (send_keyboard_key_action conn _ s) as [[[] | e] s1];
    [apply IH | reflexivity].
Qed.

(** X3.  A payload without the key [value] is refused before anything
    happens: the key, click and text actions raise [KeyError] for
    [value], and the machine has been sent nothing. *)
Theorem missing_value_is_refused_up_front (p : payload) (s : vmstate) :
  p !! "value"%string = None ->
  send_keyboard_key_action conn p s = (Err (KeyError "value"), s) /\
  send_mouse_click_action conn p s = (Err (KeyError "value"), s) /\
  send_keyboard_text_action conn p s = (Err (KeyError "value"), s).
Proof.
  intros H.
  unfold send_keyboard_key_action, send_mouse_click_action,
    send_keyboard_text_action.
  repeat split; unfold vbind at 1; now rewrite (getitem_none _ _ s H).
Qed.

(** X4.  A payload with a value but without [duration_s] leaves the key
    or button pressed: the press is sent, the pause that follows raises
    [KeyError] for [duration_s], and the release is never sent. *)
Theorem missing_pause_leaves_it_pressed (p : payload) (v : pyval)
    (s : vmstate) :
  p !! "value"%string = Some v ->
  p !! "duration_s"%string = None ->
  qemuMonitorCommand conn (monitor_calls s) <> RaisesOther ->
  send_keyboard_key_action conn p s =
  (Err (KeyError "duration_s"),
   VmState (vmDom s) (S (monitor_calls s)) (screenshots s) (files s)
     (log s ++ [Monitor (vmDom s)
                  (input_send_event [key_event true (json_of_pyval v)])]))
  /\
  send_mouse_click_action conn p s =
  (Err (KeyError "duration_s"),
   VmState (vmDom s) (S (monitor_calls s)) (screenshots s) (files s)
     (log s ++ [Monitor (vmDom s)
                  (input_send_event [btn_event true (json_of_pyval v)])])).
Proof.
  intros Hv Hd Hm. split.
  - unfold send_keyboard_key_action. vm_with (getitem_some _ _ _ s Hv).
    destruct (send_action_answers
                (input_send_event [key_event true (json_of_pyval v)]) s Hm)
      as [r E].
    vm_with E. unfold vbind at 1. now rewrite (getitem_none _ _ _ Hd).
  - unfold send_mouse_click_action. vm_with (getitem_some _ _ _ s Hv).
    destruct (send_action_answers
                (input_send_event [btn_event true (json_of_pyval v)]) s Hm)
      as [r E].
    vm_with E. unfold vbind at 1. now rewrite (getitem_none _ _ _ Hd).
Qed.

Lemma recv_all_until_end (pre post : list (list Byte.byte)) :
  Forall (fun chunk => chunk <> []) pre ->
  recv_all pre = concat pre /\ recv_all (pre ++ [] :: post) = concat pre.
Proof.
  induction 1 as [| chunk pre Hne _ [IH1 IH2]]; [now split |].
  destruct chunk as [| b chunk]; [contradiction |].
  cbn [recv_all app concat]. now rewrite IH1, IH2.
Qed.

(** How [take_screenshot] ends on a loaded machine whose screenshot the
    host delivers. *)
Lemma take_screenshot_loaded (path : string) (d : virDomain)
    (chunks : list (list Byte.byte)) (s : vmstate) :
  vmDom s = Some d ->
  screenshot conn (screenshots s) = Some chunks ->
  take_screenshot conn path s =
  (Ok tt,
   VmState (Some d) (monitor_calls s) (S (screenshots s))
           (<[path := recv_all chunks]> (files s))
           (log s ++ [NewStream; Screenshot d; StreamFinish])).
Proof.
  intros Hd Hs. unfold take_screenshot, vbind, record.
  cbn [vmDom monitor_calls screenshots files log]. rewrite Hd, Hs.
  now rewrite <- app_assoc.
Qed.

(** X5.  A screenshot file holds the stream up to its end, no more.  On a
    loaded machine, when the stream delivers the non-empty chunks [pre]
    and then ends (an empty chunk, whatever would follow it), the file at
    the target path holds exactly the bytes of [pre] in order, replacing
    what was there; no other file changes, and the stream is finished. *)
Theorem screenshot_file_is_the_stream (path : string) (d : virDomain)
    (pre post : list (list Byte.byte)) (s : vmstate) :
  vmDom s = Some d ->
  screenshot conn (screenshots s) = Some (pre ++ [] :: post) ->
  Forall (fun chunk => chunk <> []) pre ->
  exists s',
    take_screenshot conn path s = (Ok tt, s') /\
    files s' !! path = Some (concat pre) /\
    (forall other, other <> path -> files s' !! other = files s !! other) /\
    log s' = log s ++ [NewStream; Screenshot d; StreamFinish].
Proof.
  intros Hd Hs Hpre. eexists.
  split; [exact (take_screenshot_loaded path d _ s Hd Hs) |].
  cbn [files log]. destruct (recv_all_until_end pre post Hpre) as [_ ->].
  split; [apply lookup_insert_eq |]. split; [| reflexivity].
  intros other Hne. now apply lookup_insert_ne.
Qed.

(** X6.  Before [try_load] has found the machine, a screenshot and a
    mouse move fail with [AssertionError]: a stream has been opened and is
    never finished, the host has been asked for nothing else, and no file
    has been written. *)
Theorem unloaded_machine_asserts (path : string) (mouseMove : payload)
    (s : vmstate) :
  vmDom s = None ->
  let s' := VmState None (monitor_calls s) (screenshots s) (files s)
                    (log s ++ [NewStream]) in
  take_screenshot conn path s = (Err AssertionError, s') /\
  send_mouse_move_action conn uuid mouseMove s = (Err AssertionError, s').
Proof.
  intros Hd s'.
  assert (E : take_screenshot conn path s = (Err AssertionError, s')).
  { unfold take_screenshot, vbind, record.
    cbn [vmDom monitor_calls screenshots files log]. now rewrite Hd. }
  split; [exact E |].
  unfold send_mouse_move_action, get_screen_size.
  unfold vbind at 1. unfold vbind at 1.
  unfold take_screenshot, vbind, record.
  cbn [vmDom monitor_calls screenshots files log]. now rewrite Hd.
Qed.

Lemma keeps_files_vbind {A B} (m : VM A) (k : A -> VM B) :
  keeps_files m -> (forall a, keeps_files (k a)) -> keeps_files (vbind m k).
Proof.
  intros Hm Hk s. specialize (Hm s). unfold vbind.
  destruct (m s) as [[a | e] s1]; cbn [snd] in *; [| exact Hm].
  now rewrite Hk.
Qed.

Lemma keeps_files_getitem (p : payload) (k : string) :
  keeps_files (getitem p k).
Proof. intros s. unfold getitem. now destruct (p !! k). Qed.

Lemma keeps_files_int_times (n : Z) (v : pyval) : keeps_files (int_times n v).
Proof. intros s. now destruct v. Qed.

Lemma keeps_files_sleep (v : pyval) : keeps_files (sleep v).
Proof.
  intros s. destruct v as [| t | q]; try reflexivity.
  unfold sleep. now destruct (Qle_bool 0 q).
Qed.

Lemma keeps_files_send_action (cmd : json) : keeps_files (send_action conn cmd).
Proof.
  intros s. unfold send_action.
  now destruct (qemuMonitorCommand conn (monitor_calls s)).
Qed.

(** What follows the size query in [send_mouse_move_action] leaves the
    files alone. *)
Lemma move_rest_keeps_files (mouseMove : payload) (w h : Z) :
  keeps_files (x_rel <- getitem mouseMove "x_rel" ;;
               x <- int_times w x_rel ;;
               y_rel <- getitem mouseMove "y_rel" ;;
               y <- int_times h y_rel ;;
               send_action conn (input_send_event
                 [axis_event "abs" "x" 0; axis_event "abs" "y" 0;
                  axis_event "rel" "x" x; axis_event "rel" "y" y]) ;;;
               d <- getitem mouseMove "duration_s" ;;
               sleep d).
Proof.
  repeat first
    [ apply keeps_files_vbind; [| intros ?]
    | apply keeps_files_getitem
    | apply keeps_files_int_times
    | apply keeps_files_send_action
    | apply keeps_files_sleep ].
Qed.

(** X7.  The screenshot that a mouse move takes to learn the screen size
    never stays behind.  On a loaded machine whose screenshot the host
    delivers, however [send_mouse_move_action] ends (normally, on an
    image that does not decode, on a bad payload or on a monitor error),
    the files afterwards are the files before without
    [/tmp/<uuid>_screen_size.png]: the temporary file is gone, and so is a
    file of that name that was there before. *)
Theorem mouse_move_removes_its_screenshot (mouseMove : payload)
    (d : virDomain) (chunks : list (list Byte.byte)) (s s' : vmstate)
    (r : result unit) :
  vmDom s = Some d ->
  screenshot conn (screenshots s) = Some chunks ->
  send_mouse_move_action conn uuid mouseMove s = (r, s') ->
  files s' = delete (size_path uuid) (files s).
Proof.
  intros Hd Hs. unfold send_mouse_move_action, get_screen_size.
  unfold vbind at 1. unfold vbind at 1.
  rewrite (take_screenshot_loaded _ d chunks s Hd Hs).
  cbn [files vmDom monitor_calls screenshots log].
  fold (size_path uuid). rewrite lookup_insert_eq, delete_insert_eq.
  destruct (imread conn (recv_all chunks)) as [img |].
  - intros E.
    change (files s') with (files (snd (r, s'))). rewrite <- E.
    now rewrite move_rest_keeps_files.
  - now intros [= _ <-].
Qed.

(** Rounding to the nearest float keeps a number between 0 and an integer
    below 2 ^ 53 in that range. *)
Lemma round_half_even_inside (y : Q) (K : Z) :
  0 <= y -> y <= inject_Z K -> (0 <= round_half_even y <= K)%Z.
Proof.
  intros H0 HK.
  assert (Hf0 : (0 <= Qfloor y)%Z).
  { apply (Qfloor_resp_le 0 y) in H0. exact H0. }
  assert (HfK : (Qfloor y <= K)%Z).
  { apply Qfloor_resp_le in HK. now rewrite Qfloor_Z in HK. }
  assert (Hup : ~ y - inject_Z (Qfloor y) < 1 # 2 -> (Qfloor y + 1 <= K)%Z).
  { intros Hn. apply Qnot_lt_le in Hn.
    assert (Hlt : inject_Z (Qfloor y) < inject_Z K).
    { apply Qlt_le_trans with y; [| exact HK].
      apply Qlt_minus_iff. apply Qlt_le_trans with (1 # 2); [reflexivity |].
      unfold Qminus in Hn. exact Hn. }
    rewrite <- Zlt_Qlt in Hlt. lia. }
  unfold round_half_even.
  destruct (Qcompare (y - inject_Z (Qfloor y)) (1 # 2)) eqn:E.
  - apply Qeq_alt in E.
    assert (Hn : ~ y - inject_Z (Qfloor y) < 1 # 2).
    { rewrite E. apply Qlt_irrefl. }
    destruct (Z.even (Qfloor y)); specialize (Hup Hn); lia.
  - lia.
  - apply Qgt_alt in E.
    assert (Hn : ~ y - inject_Z (Qfloor y) < 1 # 2).
    { intros H. apply (Qlt_irrefl (1 # 2)). now apply Qlt_trans with (y - inject_Z (Qfloor y)). }
    specialize (Hup Hn). lia.
Qed.

Lemma binade_le (x : Q) : 0 < x -> 2 ^ binade x <= x.
Proof.
  intros Hx. unfold binade.
  destruct (Qle_bool _ x) eqn:E; [now apply Qle_bool_iff |].
  destruct x as [a b]. cbn [Qnum Qden].
  assert (Ha : (0 < a)%Z) by (unfold Qlt in Hx; simpl in Hx; lia).
  pose proof (Z.log2_spec a Ha) as [Hla _].
  pose proof (Z.log2_spec (Zpos b) ltac:(lia)) as [_ Hlb].
  pose proof (Z.log2_nonneg a) as Hna.
  pose proof (Z.log2_nonneg (Zpos b)) as Hnb.
  replace (Z.log2 a - Z.log2 (Z.pos b) - 1)%Z
    with (Z.log2 a - Z.succ (Z.log2 (Z.pos b)))%Z by lia.
  rewrite Qpower_minus by discriminate.
  change 2 with (inject_Z 2).
  rewrite <- !Zpower_Qpower by lia.
  set (A := (2 ^ Z.log2 a)%Z) in *.
  set (B := (2 ^ Z.succ (Z.log2 (Z.pos b)))%Z) in *.
  apply Qle_shift_div_r.
  - change (inject_Z 0 < inject_Z B). rewrite <- Zlt_Qlt. lia.
  - unfold Qle. cbn [Qnum Qden inject_Z Qmult]. nia.
Qed.

Lemma binary64_inside (n : Z) (x : Q) :
  (0 <= n < 2 ^ 53)%Z -> 0 <= x -> x <= inject_Z n ->
  0 <= binary64 x /\ binary64 x <= inject_Z n.
Proof.
  intros Hn H0 Hx.
  assert (Hn0 : 0 <= inject_Z n)
    by (change (inject_Z 0 <= inject_Z n); rewrite <- Zle_Qle; lia).
  unfold binary64. destruct (Qcompare x 0) eqn:E.
  - split; [apply Qle_refl | exact Hn0].
  - apply Qlt_alt in E. now apply Qlt_not_le in E.
  - apply Qgt_alt in E.
    assert (He : (binade x - 52 <= 0)%Z).
    { assert (H : 2 ^ binade x < 2 ^ 53).
      { apply Qle_lt_trans with x; [now apply binade_le |].
        apply Qle_lt_trans with (inject_Z n); [exact Hx |].
        change (2 ^ 53) with (inject_Z (2 ^ 53)).
        rewrite <- Zlt_Qlt. lia. }
      apply Qpower_lt_compat_l_inv in H; [lia | reflexivity]. }
    set (e := (binade x - 52)%Z) in *. cbv zeta.
    assert (Hu : 0 < 2 ^ e) by now apply Qpower_0_lt.
    set (u := 2 ^ e) in *.
    assert (HK : inject_Z (n * 2 ^ (- e)) * u == inject_Z n).
    { rewrite inject_Z_mult, Zpower_Qpower by lia.
      change (inject_Z 2) with 2. rewrite Qpower_opp. fold u.
      field. intros H. rewrite H in Hu. now apply Qlt_irrefl in Hu. }
    destruct (round_half_even_inside (x / u) (n * 2 ^ (- e))) as [Hm0 HmK].
    + apply Qle_shift_div_l; [exact Hu |]. now rewrite Qmult_0_l.
    + apply Qle_shift_div_r; [exact Hu |]. now rewrite HK.
    + split.
      * apply Qmult_le_0_compat; [| now apply Qlt_le_weak].
        change (inject_Z 0 <= inject_Z (round_half_even (x / u))).
        now rewrite <- Zle_Qle.
      * rewrite <- HK. apply Qmult_le_compat_r; [| now apply Qlt_le_weak].
        now rewrite <- Zle_Qle.
Qed.

Lemma int_of_float_inside (n : Z) (r : Q) :
  0 <= r -> r <= inject_Z n -> (0 <= int_of_float r <= n)%Z.
Proof.
  destruct r as [a b]. unfold Qle, int_of_float. cbn [Qnum Qden inject_Z].
  intros H0 Hn.
  assert (Ha : (0 <= a)%Z) by lia.
  rewrite Z.quot_div_nonneg by lia.
  split; [apply Z.div_pos; lia |].
  apply Z.div_le_upper_bound; lia.
Qed.

(** [int(n * q)] for a fraction [q] of [n] lies between 0 and [n]. *)
Lemma int_times_inside (n : Z) (q : Q) :
  (0 <= n < 2 ^ 53)%Z -> 0 <= q -> q <= 1 ->
  (0 <= int_of_float (binary64 (inject_Z n * q)) <= n)%Z.
Proof.
  intros Hn H0 H1.
  assert (Hn0 : 0 <= inject_Z n)
    by (change (inject_Z 0 <= inject_Z n); rewrite <- Zle_Qle; lia).
  destruct (binary64_inside n (inject_Z n * q) Hn) as [Hlo Hhi].
  - now apply Qmult_le_0_compat.
  - rewrite (Qmult_comm (inject_Z n) q).
    apply Qle_trans with (1 * inject_Z n);
      [now apply Qmult_le_compat_r | rewrite Qmult_1_l; apply Qle_refl].
  - now apply int_of_float_inside.
Qed.

(** The product is rounded before it is truncated: [int(100 * 0.29)] is
    28 and [int(10 * 0.7)] is 7, where the fractions 29/100 and 7/10
    truncate to 29 and 6. *)
Example int_times_rounds_the_product (s : vmstate) :
  int_times 100 (VNum (binary64 (29 # 100))) s = (Ok 28%Z, s) /\
  int_times 10 (VNum (binary64 (7 # 10))) s = (Ok 7%Z, s) /\
  int_times 640 (VNum (1 # 2)) s = (Ok 320%Z, s).
Proof. repeat split. Qed.

(** X8.  A mouse move stays on the screen and is sent as one command.  On
    a loaded machine whose screenshot decodes to an image (of less than
    2 ^ 53 pixels a side), with fractions between 0 and 1 and a
    non-negative pause in the payload, [send_mouse_move_action] takes one
    screenshot, sends one monitor command (the pointer is set to the
    origin and then moved by [x] and [y]) and pauses; [x] lies between 0
    and the image's width, and [y] between 0 and its height. *)
Theorem mouse_move_stays_on_screen (mouseMove : payload) (d : virDomain)
    (chunks : list (list Byte.byte)) (img : image) (x_rel y_rel t : Q)
    (s : vmstate) :
  vmDom s = Some d ->
  screenshot conn (screenshots s) = Some chunks ->
  imread conn (recv_all chunks) = Some img ->
  qemuMonitorCommand conn (monitor_calls s) <> RaisesOther ->
  mouseMove !! "x_rel"%string = Some (VNum x_rel) ->
  mouseMove !! "y_rel"%string = Some (VNum y_rel) ->
  mouseMove !! "duration_s"%string = Some (VNum t) ->
  (Z.of_nat (cols img) < 2 ^ 53)%Z -> (Z.of_nat (rows img) < 2 ^ 53)%Z ->
  0 <= x_rel -> x_rel <= 1 -> 0 <= y_rel -> y_rel <= 1 -> 0 <= t ->
  exists x y,
    send_mouse_move_action conn uuid mouseMove s =
    (Ok tt,
     VmState (Some d) (S (monitor_calls s)) (S (screenshots s))
       (delete (size_path uuid) (files s))
       (log s ++
        [NewStream; Screenshot d; StreamFinish;
         Monitor (Some d)
           (input_send_event
              [axis_event "abs" "x" 0; axis_event "abs" "y" 0;
               axis_event "rel" "x" x; axis_event "rel" "y" y]);
         Slept t])) /\
    (0 <= x <= Z.of_nat (cols img))%Z /\
    (0 <= y <= Z.of_nat (rows img))%Z.
Proof.
  intros Hd Hs Hi Hm Hx Hy Ht Hw Hh Hx0 Hx1 Hy0 Hy1 Ht0.
  exists (int_of_float (binary64 (inject_Z (Z.of_nat (cols img)) * x_rel))),
         (int_of_float (binary64 (inject_Z (Z.of_nat (rows img)) * y_rel))).
  split; [| split; apply int_times_inside; (lia || assumption)].
  unfold send_mouse_move_action, get_screen_size.
  unfold vbind at 1. unfold vbind at 1.
  rewrite (take_screenshot_loaded _ d chunks s Hd Hs).
  cbn [files vmDom monitor_calls screenshots log].
  fold (size_path uuid). rewrite lookup_insert_eq, delete_insert_eq, Hi.
  cbn [fst snd].
  vm_with (getitem_some _ _ _ _ Hx). unfold vbind at 1. cbn [int_times ok].
  vm_with (getitem_some _ _ _ _ Hy). unfold vbind at 1. cbn [int_times ok].
  match goal with |- vbind (send_action conn ?cmd) _ ?st = _ =>
    destruct (send_action_answers cmd st Hm) as [r E]
  end.
  vm_with E. vm_with (getitem_some _ _ _ _ Ht). rewrite (sleep_ok t _ Ht0).
  cbn [files vmDom monitor_calls screenshots log].
  now rewrite <- !app_assoc.
Qed.

(** X9.  [try_load] decides whether the machine can be used.  On a new
    object, when the host knows the uuid, [try_load] returns [True] and a
    screenshot that follows gets as far as the host: it succeeds or fails
    with [libvirtError]; when the host does not know the uuid, [try_load]
    returns [False] and the screenshot fails with [AssertionError]. *)
Theorem try_load_decides_usability (path : string) (s : vmstate) :
  vmDom s = None ->
  match lookupByUUIDString conn uuid with
  | Some d =>
      exists s1,
        try_load conn uuid s = (Ok true, s1) /\ vmDom s1 = Some d /\
        (fst (take_screenshot conn path s1) = Ok tt \/
         fst (take_screenshot conn path s1) = Err libvirtError)
  | None =>
      try_load conn uuid s = (Ok false, s) /\
      fst (take_screenshot conn path s) = Err AssertionError
  end.
Proof.
  intros Hd. unfold try_load.
  destruct (lookupByUUIDString conn uuid) as [d |].
  - eexists. split; [reflexivity |]. split; [reflexivity |].
    unfold take_screenshot, vbind, record.
    cbn [vmDom monitor_calls screenshots files log].
    destruct (screenshot conn (screenshots s)); [now left | now right].
  - split; [reflexivity |].
    unfold take_screenshot, vbind, record.
    cbn [vmDom monitor_calls screenshots files log]. now rewrite Hd.
Qed.

(** X10.  A [try_load] that fails keeps the machine that was loaded
    before: the object is unchanged, so the calls that follow still go to
    the old domain. *)
Theorem failed_reload_keeps_old_domain (d : virDomain) (cmd : json)
    (s : vmstate) :
  vmDom s = Some d ->
  lookupByUUIDString conn uuid = None ->
  try_load conn uuid s = (Ok false, s) /\
  exists r s',
    (try_load conn uuid ;;; send_action conn cmd) s = (r, s') /\
    log s' = log s ++ [Monitor (Some d) cmd].
Proof.
  intros Hd Hl.
  assert (E : try_load conn uuid s = (Ok false, s)).
  { unfold try_load. now rewrite Hl. }
  split; [exact E |]. vm_with E. unfold send_action. rewrite Hd.
  destruct (qemuMonitorCommand conn (monitor_calls s)); eauto.
Qed.

(** X11.  [create] creates nothing.  Whatever description it is given, it
    leaves the object as it is and asks the host only whether the uuid
    exists: it raises an exception when it does and returns normally when
    it does not, and a [try_load] after a [create] that returned still
    does not find the machine. *)
Theorem create_creates_nothing (vmXml : string) (s : vmstate) :
  snd (create conn uuid vmXml s) = s /\
  (fst (create conn uuid vmXml s) = Ok tt <->
   lookupByUUIDString conn uuid = None) /\
  (fst (create conn uuid vmXml s) = Ok tt ->
   (create conn uuid vmXml ;;; try_load conn uuid) s = (Ok false, s)).
Proof.
  unfold create, try_load, vbind.
  destruct (lookupByUUIDString conn uuid) as [d |]; cbn.
  - repeat split; discriminate.
  - repeat split; reflexivity.
Qed.

(** X12.  [destroy] needs a loaded machine and does not forget it.  With
    a machine loaded, [destroy] asks the host to destroy the domain and the
    object keeps the handle: a second [destroy] asks the host again for
    the same domain.  The same object without a loaded machine raises an
    exception and asks the host for nothing. *)
Theorem destroy_keeps_the_handle (d : virDomain) (s : vmstate) :
  vmDom s = Some d ->
  dom_destroy conn d = true ->
  (destroy conn ;;; destroy conn) s =
  (Ok tt, VmState (Some d) (monitor_calls s) (screenshots s) (files s)
                  (log s ++ [Destroy d; Destroy d])) /\
  let unloaded := VmState None (monitor_calls s) (screenshots s) (files s)
                          (log s) in
  exists msg, destroy conn unloaded = (Err (Exception msg), unloaded).
Proof.
  intros Hd Hok. split; [| cbv zeta; unfold destroy; cbn [vmDom]; eauto].
  unfold vbind, destroy. rewrite Hd, Hok. cbn [vmDom]. rewrite Hok.
  cbn [monitor_calls screenshots files log]. now rewrite <- app_assoc.
Qed.

End Facts.

(** *** The driver on the scenarios *)

Section Witnesses.

Import VmScenario.

Lemma flaky_answers : monitor_answers flaky.
Proof. intros n. unfold flaky; simpl. destruct (Nat.even n); discriminate. Qed.

Lemma typing_sends_press_release_per_character_witness :
  send_keyboard_text_action flaky (key "ab") loaded =
  (Ok tt,
   VmState (vmDom loaded) (2 * String.length "ab" + monitor_calls loaded)
           (screenshots loaded) (files loaded)
           (log loaded ++ flat_map (typed (vmDom loaded) (1 # 4))
                                   (list_ascii_of_string "ab"))).
Proof.
  apply (typing_sends_press_release_per_character flaky (key "ab") "ab"
           (1 # 4) loaded).
  - exact flaky_answers.
  - vm_compute. reflexivity.
  - vm_compute. reflexivity.
  - unfold Qle; simpl; lia.
Defined.

Lemma typing_is_pressing_each_key_witness :
  send_keyboard_text_action flaky (key "ab") loaded =
  press_each flaky (key "ab") (list_ascii_of_string "ab") loaded.
Proof.
  apply (typing_is_pressing_each_key flaky (key "ab") "ab" loaded).
  vm_compute. reflexivity.
Defined.

Lemma missing_value_is_refused_up_front_witness :
  send_keyboard_key_action flaky to_middle loaded
  = (Err (KeyError "value"), loaded) /\
  send_mouse_click_action flaky to_middle loaded
  = (Err (KeyError "value"), loaded) /\
  send_keyboard_text_action flaky to_middle loaded
  = (Err (KeyError "value"), loaded).
Proof.
  apply (missing_value_is_refused_up_front flaky to_middle loaded).
  vm_compute. reflexivity.
Defined.

Lemma missing_pause_leaves_it_pressed_witness :
  send_keyboard_key_action flaky no_pause loaded =
  (Err (KeyError "duration_s"),
   VmState (vmDom loaded) (S (monitor_calls loaded)) (screenshots loaded)
     (files loaded)
     (log loaded ++
      [Monitor (vmDom loaded)
         (input_send_event [key_event true (json_of_pyval (VStr "a"))])]))
  /\
  send_mouse_click_action flaky no_pause loaded =
  (Err (KeyError "duration_s"),
   VmState (vmDom loaded) (S (monitor_calls loaded)) (screenshots loaded)
     (files loaded)
     (log loaded ++
      [Monitor (vmDom loaded)
         (input_send_event [btn_event true (json_of_pyval (VStr "a"))])])).
Proof.
  apply (missing_pause_leaves_it_pressed flaky no_pause (VStr "a") loaded).
  - vm_compute. reflexivity.
  - vm_compute. reflexivity.
  - discriminate.
Defined.

Lemma screenshot_file_is_the_stream_witness :
  exists s',
    take_screenshot flaky "/tmp/shot.png" loaded = (Ok tt, s') /\
    files s' !! "/tmp/shot.png"%string
    = Some (concat [[Byte.x89; Byte.x50]; [Byte.x4e; Byte.x47]]) /\
    (forall other, other <> "/tmp/shot.png"%string ->
                   files s' !! other = files loaded !! other) /\
    log s' = log loaded ++ [NewStream; Screenshot (Domain 1); StreamFinish].
Proof.
  apply (screenshot_file_is_the_stream flaky "/tmp/shot.png" (Domain 1)
           [[Byte.x89; Byte.x50]; [Byte.x4e; Byte.x47]] [[Byte.x00]] loaded).
  - reflexivity.
  - reflexivity.
  - repeat first [apply List.Forall_cons | apply List.Forall_nil];
      discriminate.
Defined.

Lemma unloaded_machine_asserts_witness :
  let s' := VmState None (monitor_calls fresh) (screenshots fresh)
                    (files fresh) (log fresh ++ [NewStream]) in
  take_screenshot flaky "/tmp/shot.png" fresh = (Err AssertionError, s') /\
  send_mouse_move_action flaky "vm0" to_middle fresh
  = (Err AssertionError, s').
Proof.
  apply (unloaded_machine_asserts flaky "vm0" "/tmp/shot.png" to_middle fresh).
  reflexivity.
Defined.

Lemma mouse_move_removes_its_screenshot_witness :
  files (snd (send_mouse_move_action flaky "vm0" no_pause loaded))
  = delete (size_path "vm0") (files loaded).
Proof.
  apply (mouse_move_removes_its_screenshot flaky "vm0" no_pause (Domain 1)
           [[Byte.x89; Byte.x50]; [Byte.x4e; Byte.x47]; []; [Byte.x00]]
           loaded _ (fst (send_mouse_move_action flaky "vm0" no_pause loaded))).
  - reflexivity.
  - reflexivity.
  - apply surjective_pairing.
Defined.

Lemma mouse_move_stays_on_screen_witness :
  exists x y,
    send_mouse_move_action flaky "vm0" to_middle loaded =
    (Ok tt,
     VmState (Some (Domain 1)) (S (monitor_calls loaded))
       (S (screenshots loaded))
       (delete (size_path "vm0") (files loaded))
       (log loaded ++
        [NewStream; Screenshot (Domain 1); StreamFinish;
         Monitor (Some (Domain 1))
           (input_send_event
              [axis_event "abs" "x" 0; axis_event "abs" "y" 0;
               axis_event "rel" "x" x; axis_event "rel" "y" y]);
         Slept (1 # 4)])) /\
    (0 <= x <= Z.of_nat (cols (Image 480 640 3 [])))%Z /\
    (0 <= y <= Z.of_nat (rows (Image 480 640 3 [])))%Z.
Proof.
  apply (mouse_move_stays_on_screen flaky "vm0" to_middle (Domain 1)
           [[Byte.x89; Byte.x50]; [Byte.x4e; Byte.x47]; []; [Byte.x00]]
           (Image 480 640 3 []) (1 # 2) (1 # 2) (1 # 4) loaded).
  - reflexivity.
  - reflexivity.
  - reflexivity.
  - discriminate.
  - vm_compute. reflexivity.
  - vm_compute. reflexivity.
  - vm_compute. reflexivity.
  - simpl. lia.
  - simpl. lia.
  - unfold Qle; simpl; lia.
  - unfold Qle; simpl; lia.
  - unfold Qle; simpl; lia.
  - unfold Qle; simpl; lia.
  - unfold Qle; simpl; lia.
Defined.

Lemma try_load_decides_usability_witness :
  match lookupByUUIDString flaky "vm0" with
  | Some d =>
      exists s1,
        try_load flaky "vm0" fresh = (Ok true, s1) /\ vmDom s1 = Some d /\
        (fst (take_screenshot flaky "/tmp/shot.png" s1) = Ok tt \/
         fst (take_screenshot flaky "/tmp/shot.png" s1) = Err libvirtError)
  | None =>
      try_load flaky "vm0" fresh = (Ok false, fresh) /\
      fst (take_screenshot flaky "/tmp/shot.png" fresh) = Err AssertionError
  end.
Proof.
  apply (try_load_decides_usability flaky "vm0" "/tmp/shot.png" fresh).
  reflexivity.
Defined.

Lemma failed_reload_keeps_old_domain_witness :
  try_load flaky "gone" loaded = (Ok false, loaded) /\
  exists r s',
    (try_load flaky "gone" ;;; send_action flaky JNull) loaded = (r, s') /\
    log s' = log loaded ++ [Monitor (Some (Domain 1)) JNull].
Proof.
  apply (failed_reload_keeps_old_domain flaky "gone" (Domain 1) JNull loaded).
  - reflexivity.
  - reflexivity.
Defined.

Lemma destroy_keeps_the_handle_witness :
  (destroy flaky ;;; destroy flaky) loaded =
  (Ok tt, VmState (Some (Domain 1)) (monitor_calls loaded)
                  (screenshots loaded) (files loaded)
                  (log loaded ++ [Destroy (Domain 1); Destroy (Domain 1)])) /\
  let unloaded := VmState None (monitor_calls loaded) (screenshots loaded)
                          (files loaded) (log loaded) in
  exists msg, destroy flaky unloaded = (Err (Exception msg), unloaded).
Proof.
  apply (destroy_keeps_the_handle flaky (Domain 1) loaded).
  - reflexivity.
  - reflexivity.
Defined.

End Witnesses.

End NewvmFacts.

(** ** More on the action dispatcher *)

Section MoreDispatcherFacts.

Local Open Scope sm_scope.

(** X13.  A descriptor with several known kinds is treated as one of the
    first kind it has in the order mouse_move, mouse_click, keyboard_key,
    keyboard_text, command; the other kinds it has are ignored.  The
    machine is asked for the method of that kind only: if it has it (under
    the name the dispatcher asks for), that one call is made; if not, the
    dispatcher raises [AttributeError] for that name and nothing is
    sent. *)
Theorem first_kind_of_a_descriptor_wins (w : world) (a : action) (i : nat)
    (kind : string) (p : payload) (c : call) (s : state) :
  known_kinds !! i = Some kind ->
  (forall j k, (j < i)%nat -> known_kinds !! j = Some k -> a !! k = None) ->
  a !! kind = Some p ->
  capability kind p = Some c ->
  perform_action w a s =
  if machine_hasattr w (attribute_of kind)
  then (Ret tt, State (shots s) (ticks s) (trace s ++ [Machine c]))
  else (Raise (AttributeError (attribute_of kind)), s).
Proof.
  intros Hi Hbefore Hp Hc. unfold perform_action.
  do 5 (destruct i as [| i];
        [ injection Hi as <-; rewrite Hp; injection Hc as <-;
          unfold machine_call; cbv zeta;
          match goal with |- context [attribute_of ?k] =>
            let n := eval vm_compute in (attribute_of k) in
            change (attribute_of k) with n
          end;
          match goal with |- context [mangle ?cl ?m] =>
            let n := eval vm_compute in (mangle cl m) in
            change (mangle cl m) with n
          end;
          match goal with |- context [machine_hasattr w ?n] =>
            destruct (machine_hasattr w n) end; reflexivity
        | erewrite (Hbefore 0%nat) by first [lia | reflexivity];
          pose proof (fun j k (H : (j < i)%nat) => Hbefore (S j) k ltac:(lia))
            as Hbefore';
          clear Hbefore; rename Hbefore' into Hbefore;
          cbn [known_kinds lookup] in Hi ]).
  discriminate.
Qed.

Lemma first_kind_of_a_descriptor_wins_witness :
  perform_action (showing black) click_and_type initial =
  (Raise (AttributeError "_StagesSystem__send_mouse_click_action"), initial).
Proof.
  apply (first_kind_of_a_descriptor_wins (showing black) click_and_type 1
           "mouse_click" (key "left")
           (send_mouse_click_action (key "left")) initial).
  - reflexivity.
  - intros j k Hj Hk. destruct j as [| j]; [| lia].
    injection Hk as <-. vm_compute. reflexivity.
  - vm_compute. reflexivity.
  - reflexivity.
Defined.

(** The same descriptor on a machine that has every method it is asked
    for. *)
Example click_and_type_on_a_test_double :
  perform_action (stand_in black) click_and_type initial =
  (Ret tt, State 0 0 [Machine (send_mouse_click_action (key "left"))]).
Proof. vm_compute. reflexivity. Qed.

(** X14.  The dispatcher stops at the first descriptor it cannot serve: a
    descriptor of no known kind ([Exception] naming the descriptor), or
    one whose method the machine lacks under the name the dispatcher asks
    for ([AttributeError] naming that attribute).  The calls for the
    descriptors before it have been made, in order; for the descriptors
    after it no call is made. *)
Theorem dispatcher_stops_at_first_invalid (w : world) (stageObj : stage)
    (pre post : list action) (bad : action) (calls : list call) (e : exn)
    (s : state) :
  actions stageObj = pre ++ bad :: post ->
  Forall2 (serves w) pre calls ->
  refused w bad e ->
  perform_stage_actions w stageObj s =
  (Raise e, State (shots s) (ticks s) (trace s ++ map Machine calls)).
Proof.
  intros Hacts Hpre Hbad. unfold perform_stage_actions. rewrite Hacts.
  clear Hacts. revert s. induction Hpre as [| a c pre calls Ha _ IH]; intros s.
  - cbn [app perform_actions map]. unfold bind.
    rewrite (perform_action_refused w bad e s Hbad).
    rewrite app_nil_r. now destruct s.
  - cbn [app perform_actions map].
    rewrite (bind_ret _ _ _ _ _ (perform_action_serves w a c s Ha)).
    rewrite IH. cbn [shots ticks trace]. now rewrite <- app_assoc.
Qed.

Lemma dispatcher_stops_at_first_invalid_witness :
  perform_stage_actions (showing black) half_good initial =
  (Raise (AttributeError "_StagesSystem__send_mouse_click_action"),
   State (shots initial) (ticks initial) (trace initial ++ map Machine [])).
Proof.
  apply (dispatcher_stops_at_first_invalid (showing black) half_good
           []
           [ {[ "wait"%string := key "1" ]};
             {[ "keyboard_key"%string := key "ret" ]} ]
           {[ "mouse_click"%string := key "left" ]}
           [] (AttributeError "_StagesSystem__send_mouse_click_action")
           initial).
  - reflexivity.
  - apply List.Forall2_nil.
  - right. exists "mouse_click"%string, (key "left"),
      (send_mouse_click_action (key "left")).
    split; [vm_compute; reflexivity |].
    split; [| repeat split; vm_compute; reflexivity].
    repeat first [apply List.Forall_cons | apply List.Forall_nil];
      first [left; reflexivity | right; vm_compute; reflexivity].
Defined.

(** On a machine that has every method it is asked for, the same stage
    gets as far as its descriptor of no known kind. *)
Example half_good_on_a_test_double :
  perform_stage_actions (stand_in black) half_good initial =
  (Raise (InvalidStageAction {[ "wait"%string := key "1" ]}),
   State 0 0 [Machine (send_mouse_click_action (key "left"))]).
Proof. vm_compute. reflexivity. Qed.

End MoreDispatcherFacts.

(** ** More on the scorer *)

Section MoreScorerFacts.

Local Open Scope Q_scope.

Lemma np_sum_zeros (l : list Z) (acc : Z) :
  Forall (fun x => x = 0%Z) l ->
  fold_left (fun acc x => (acc + x) mod 2 ^ 64)%Z l acc =
  match l with [] => acc | _ => (acc mod 2 ^ 64)%Z end.
Proof.
  intros H. revert acc. induction H as [| x l -> _ IH]; intros acc;
    [reflexivity |].
  cbn [fold_left]. rewrite IH, Z.add_0_r.
  destruct l; [reflexivity |]. now rewrite Z.mod_mod by lia.
Qed.

Lemma saturated_squares_zero (a b : list Z) :
  Forall2 (fun c r => (c <= r)%Z) a b ->
  Forall (fun x => x = 0%Z)
    (map (fun d => (d * d) mod 256)%Z
         (zip_with (fun x y => saturate_u8 (x - y)) a b)).
Proof.
  induction 1 as [| c r a b Hcr _ IH]; [constructor |].
  cbn [zip_with map]. constructor; [| exact IH].
  unfold saturate_u8. rewrite Z.max_l by lia. reflexivity.
Qed.

(** X15.  A capture that is nowhere brighter than the reference scores
    an mse of 0, however much darker it is: for two images of one shape,
    if every element of the capture is at most the element of the
    reference, [__img_mse] returns 0 (the saturating subtraction leaves no
    difference).  Identical images are the special case.  The images are
    not empty. *)
Theorem darker_capture_scores_zero (cur ref : image) :
  same_shape cur ref = true ->
  (0 < rows cur * cols cur)%nat ->
  Forall2 (fun c r => (c <= r)%Z) (data cur) (data ref) ->
  exists mse dif, img_mse cur ref = Some (mse, dif) /\ mse == 0.
Proof.
  intros Hs _ Hle. unfold img_mse, cv2_subtract. rewrite Hs.
  eexists _, _. split; [reflexivity |].
  unfold np_sum, u8_square. cbn [data].
  rewrite (np_sum_zeros _ 0 (saturated_squares_zero _ _ Hle)).
  assert (E : forall l : list Z,
             match l with [] => 0%Z | _ => (0 mod 2 ^ 64)%Z end = 0%Z)
    by (intros []; reflexivity).
  rewrite E. unfold py_min.
  destruct (Qle_bool _ 10) eqn:Eb.
  - unfold Qdiv. apply Qmult_0_l.
  - exfalso. rewrite <- not_true_iff_false in Eb. apply Eb.
    apply Qle_bool_iff. unfold Qdiv. rewrite Qmult_0_l. discriminate.
Qed.

Lemma darker_capture_scores_zero_witness :
  exists mse dif, img_mse black grey16 = Some (mse, dif) /\ mse == 0.
Proof.
  apply (darker_capture_scores_zero black grey16).
  - reflexivity.
  - simpl. lia.
  - unfold black, grey16, solid. cbn [data].
    generalize (7 * 7 * 3)%nat. intros n.
    induction n as [| n IH]; cbn [repeat]; constructor; [lia | exact IH].
Defined.

Lemma np_sum_small (l : list Z) (acc : Z) :
  Forall (fun x => 0 <= x <= 255)%Z l ->
  (0 <= acc)%Z ->
  (acc + 255 * Z.of_nat (length l) < 2 ^ 64)%Z ->
  fold_left (fun acc x => (acc + x) mod 2 ^ 64)%Z l acc = fold_left Z.add l acc.
Proof.
  intros H. revert acc. induction H as [| x l Hx _ IH]; intros acc Hacc Hlt;
    [reflexivity |].
  cbn [fold_left length] in *. rewrite Z.mod_small by lia.
  apply IH; lia.
Qed.

Lemma small_squares (a b : list Z) :
  Forall2 (fun c r => 0 <= c - r < 16)%Z a b ->
  map (fun d => (d * d) mod 256)%Z
      (zip_with (fun x y => saturate_u8 (x - y)) a b)
  = zip_with (fun x y => (x - y) * (x - y))%Z a b /\
  Forall (fun x => 0 <= x <= 255)%Z
         (zip_with (fun x y => (x - y) * (x - y))%Z a b).
Proof.
  induction 1 as [| c r a b Hcr _ [IH1 IH2]]; [split; constructor |].
  cbn [zip_with map]. split.
  - rewrite IH1. f_equal. unfold saturate_u8.
    rewrite Z.max_r, Z.min_r by lia. apply Z.mod_small. nia.
  - constructor; [nia | exact IH2].
Qed.

(** X16.  Where the scorer is exact.  For two images of one shape, when
    every element of the capture exceeds the element of the reference by
    0 to 15 levels (and the images have fewer than 2^56 elements),
    [__img_mse] returns the mean square error: the sum of the squared
    differences over rows times columns, clamped to 10. *)
Theorem scorer_is_exact_for_small_brightening (cur ref : image) :
  same_shape cur ref = true ->
  (0 < rows cur * cols cur)%nat ->
  Forall2 (fun c r => 0 <= c - r < 16)%Z (data cur) (data ref) ->
  (Z.of_nat (length (data cur)) < 2 ^ 56)%Z ->
  exists dif, img_mse cur ref = Some (mse_of_spec cur ref, dif).
Proof.
  intros Hs _ Hd Hlen. unfold img_mse, cv2_subtract. rewrite Hs.
  eexists. do 2 f_equal.
  unfold np_sum, u8_square, mse_of_spec, sum_sq_diff. cbn [data].
  destruct (small_squares _ _ Hd) as [-> Hsmall].
  rewrite np_sum_small; try assumption; try lia.
  - unfold same_shape in Hs. rewrite !andb_true_iff, !Nat.eqb_eq in Hs.
    destruct Hs as [[-> ->] _]. reflexivity.
  - rewrite length_zip_with. lia.
Qed.

Lemma scorer_is_exact_for_small_brightening_witness :
  exists dif, img_mse dim black = Some (mse_of_spec dim black, dif).
Proof.
  apply (scorer_is_exact_for_small_brightening dim black).
  - reflexivity.
  - simpl. lia.
  - unfold black, dim, solid. cbn [data].
    generalize (7 * 7 * 3)%nat. intros n.
    induction n as [| n IH]; cbn [repeat]; constructor; [lia | exact IH].
  - simpl. lia.
Defined.

Lemma np_sum_nonneg (l : list Z) (acc : Z) :
  (0 <= acc)%Z ->
  (0 <= fold_left (fun acc x => (acc + x) mod 2 ^ 64) l acc)%Z.
Proof.
  revert acc. induction l as [| x l IH]; intros acc Hacc; [exact Hacc |].
  cbn [fold_left]. apply IH. apply Z.mod_pos_bound. lia.
Qed.

(** X17.  The mse is never negative: whatever [__img_mse] returns for
    images that are not empty lies between 0 and 10. *)
Theorem mse_is_between_0_and_10 (cur ref : image) (mse : Q) (dif : image) :
  (0 < rows cur * cols cur)%nat ->
  img_mse cur ref = Some (mse, dif) ->
  0 <= mse /\ mse <= 10.
Proof.
  intros _.
  unfold img_mse. destruct (cv2_subtract cur ref) as [d |]; [| discriminate].
  intros [= <- _]. split; [| apply py_min_le_r].
  unfold py_min. destruct (Qle_bool _ 10); [| discriminate].
  unfold Qdiv. apply Qmult_le_0_compat.
  - change 0 with (inject_Z 0). rewrite <- Zle_Qle.
    unfold np_sum. now apply np_sum_nonneg.
  - apply Qinv_le_0_compat. change 0 with (inject_Z 0).
    rewrite <- Zle_Qle. lia.
Qed.

Lemma mse_is_between_0_and_10_witness :
  0 <= 147 # 49 /\ 147 # 49 <= 10.
Proof.
  apply (mse_is_between_0_and_10 dim black (147 # 49)
           (Image 7 7 3 (repeat 1%Z 147))).
  - simpl. lia.
  - vm_compute. reflexivity.
Defined.

(** X18.  What cannot be scored.  With a resize that returns the size it
    is asked for and a similarity index that refuses images with a side
    below 7, [__comp_images] raises exactly when the capture and the
    reference differ in their number of channels ([cv2.error], from the
    subtraction) or the reference is less than 7 pixels wide or high
    ([ValueError], from [structural_similarity], for a reference that is
    not empty).  The size of the capture never matters, since the capture
    is resized first. *)
Theorem only_channels_stop_the_scorer (P : primitives) (cur ref : image) :
  resize_shape P -> ssim_window P ->
  (comp_images P cur ref = None <->
   chans cur <> chans ref \/ (rows ref < 7)%nat \/ (cols ref < 7)%nat) /\
  (chans cur <> chans ref -> comp_images_raises P cur ref = Cv2Error) /\
  (chans cur = chans ref -> (0 < rows ref * cols ref)%nat ->
   comp_images_raises P cur ref = ValueError).
Proof.
  intros HP HS. unfold comp_images_raises. rewrite comp_images_resizes.
  destruct (Nat.eq_dec (chans cur) (chans ref)) as [E | E].
  - pose proof (resize_same_shape P cur ref HP E) as Hsame.
    destruct (img_mse_same_shape _ _ Hsame) as (mse & dif & Em & _).
    rewrite Em. split; [| split; [contradiction | reflexivity]].
    specialize (HS _ _ Hsame).
    destruct (ssimFunc P (cv2_resize P cur (cols ref) (rows ref)) ref).
    + split; [discriminate |].
      intros [H | H]; [contradiction |]. apply HS in H. discriminate.
    + split; [| reflexivity]. intros _. right. now apply HS.
  - assert (Em : img_mse (cv2_resize P cur (cols ref) (rows ref)) ref = None).
    { unfold img_mse, cv2_subtract, same_shape.
      destruct (HP cur (cols ref) (rows ref)) as (_ & _ & ->).
      destruct (Nat.eqb_spec (chans cur) (chans ref)) as [E' | _];
        [contradiction |].
      now rewrite andb_false_r. }
    rewrite Em. split; [| split; [reflexivity | contradiction]].
    split; [intros _; now left | reflexivity].
Qed.

Lemma only_channels_stop_the_scorer_witness :
  (comp_images lab bright (solid 6 7 3 0) = None <->
   chans bright <> chans (solid 6 7 3 0) \/
   (rows (solid 6 7 3 0) < 7)%nat \/ (cols (solid 6 7 3 0) < 7)%nat) /\
  (chans bright <> chans (solid 6 7 3 0) ->
   comp_images_raises lab bright (solid 6 7 3 0) = Cv2Error) /\
  (chans bright = chans (solid 6 7 3 0) ->
   (0 < rows (solid 6 7 3 0) * cols (solid 6 7 3 0))%nat ->
   comp_images_raises lab bright (solid 6 7 3 0) = ValueError).
Proof.
  apply (only_channels_stop_the_scorer lab bright (solid 6 7 3 0)).
  - exact lab_resize_shape.
  - exact lab_ssim_window.
Defined.

(** A reference image 6 pixels high is refused with [ValueError], and a
    grey capture of a colour reference with [cv2.error]. *)
Example what_the_scorer_refuses :
  comp_images lab bright (solid 6 7 3 0) = None /\
  comp_images_raises lab bright (solid 6 7 3 0) = ValueError /\
  comp_images lab (solid 7 7 1 0) black = None /\
  comp_images_raises lab (solid 7 7 1 0) black = Cv2Error.
Proof. repeat split. Qed.

End MoreScorerFacts.

(** ** More on the synchronisation loop *)

Section MoreLoopFacts.

Local Open Scope sm_scope.
Local Open Scope Q_scope.

Lemma bind_inv_exit {A B} (m : M A) (k : A -> M B) (s s' : state) (c : Z) :
  bind m k s = (SysExit c, s') ->
  m s = (SysExit c, s') \/
  exists a s1, m s = (Ret a, s1) /\ k a s1 = (SysExit c, s').
Proof.
  unfold bind. destruct (m s) as [[a | c' | e |] s1]; intros E;
    try discriminate; [right; eauto | left].
  injection E as -> ->. reflexivity.
Qed.




(** X20.  The budget test fires at once.  With every reference file in
    place and at least one candidate, when the first capture passes the
    test for no reference image and the clock, read after it, is still
    within [timeoutS] of the start, [__wait_for_stage_done] exits with
    code 5: after one screenshot, two clock readings and no sleep. *)
Theorem unmatched_first_poll_within_budget_exits (fuel : nat) (u : string)
    (P : primitives) (w : world) (stageObj : stage) (sp : subpath)
    (s : state) :
  first_bad w (pathsList stageObj) = None ->
  last (pathsList stageObj) = Some sp ->
  Forall (fun ref =>
            is_Some (comp_images P (display w (shots s)) ref) /\
            passes P sp (display w (shots s)) ref = false)
         (map (fun c => cv2_imread w (checkFile c)) (pathsList stageObj)) ->
  time w (S (ticks s)) <= time w (ticks s) + timeoutS stageObj ->
  wait_for_stage_done (S fuel) (Make u false) P w stageObj s =
  (SysExit 5,
   State (S (shots s)) (S (S (ticks s)))
         (trace s ++ [Machine (Effects.take_screenshot
                                 ("/tmp/" ++ u ++ "_check.png"))])).
Proof.
  intros Hgood Hlast Hno Hin. unfold wait_for_stage_done.
  unfold bind at 1. cbn [py_time].
  rewrite (bind_ret _ _ _ _ _ (load_refs_good w _ _ Hgood)).
  cbn [poll]. unfold bind at 1. cbn [capture uuid shots ticks trace].
  rewrite Hlast.
  rewrite (bind_ret _ _ _ _ _ (scan_no_match u P sp _ _ 0 _ Hno)).
  cbn [Z.eqb Pos.eqb negb]. unfold bind at 1. cbn [py_time ticks shots trace].
  cbv beta. cbn [ticks shots trace].
  apply Qle_bool_iff in Hin. now rewrite Hin.
Qed.

Lemma unmatched_first_poll_within_budget_exits_witness :
  wait_for_stage_done 1 (Make "vm0" false) lab (showing dim) login initial =
  (SysExit 5,
   State (S (shots initial)) (S (S (ticks initial)))
         (trace initial ++ [Machine (Effects.take_screenshot
                                       ("/tmp/" ++ "vm0" ++ "_check.png"))])).
Proof.
  apply (unmatched_first_poll_within_budget_exits 0 "vm0" lab (showing dim)
           login to_desktop initial).
  - reflexivity.
  - reflexivity.
  - repeat first [apply List.Forall_cons | apply List.Forall_nil].
    split; [eexists; vm_compute; reflexivity | vm_compute; reflexivity].
  - vm_compute. discriminate.
Defined.

Lemma load_refs_keeps_state (w : world) (paths : list subpath) (s : state) :
  snd (load_refs w paths s) = s.
Proof.
  destruct (first_bad w paths) as [bad |] eqn:E.
  - now rewrite (load_refs_bad _ _ _ _ E).
  - now rewrite (load_refs_good _ _ _ E).
Qed.

Lemma load_refs_exit_inv (w : world) (paths : list subpath) (s s' : state)
    (c : Z) :
  load_refs w paths s = (SysExit c, s') -> (c = 2 \/ c = 3)%Z /\ s' = s.
Proof.
  destruct (first_bad w paths) as [bad |] eqn:E.
  - rewrite (load_refs_bad _ _ _ _ E). intros [= <- <-].
    destruct (path_exists w (checkFile bad)); auto.
  - rewrite (load_refs_good _ _ _ E). discriminate.
Qed.

(** The comparisons of one iteration never exit, read no clock and take
    no screenshot. *)
Lemma scan_no_exit (self : StagesSystem.t) (P : primitives)
    (o : option subpath) (cur : image) (refs : list image) (index : nat)
    (s : state) :
  (forall c, fst (scan self P o cur refs index s) <> SysExit c) /\
  ticks (snd (scan self P o cur refs index s)) = ticks s /\
  shots (snd (scan self P o cur refs index s)) = shots s.
Proof.
  revert index s. induction refs as [| x refs IH]; intros index s; simpl.
  - repeat split. discriminate.
  - destruct (comp_images P cur x) as [[[mse ssim] dif] |];
      [| repeat split; discriminate].
    destruct o as [sp |]; [| repeat split; discriminate].
    unfold bind at 1 2 3.
    destruct (debugPlt self); cbn [emit ret];
      (destruct (_ >=? 1)%Z;
       [ repeat split; discriminate
       | match goal with |- context [scan _ _ _ _ _ _ ?st] =>
           destruct (IH (S index) st) as (H1 & H2 & H3)
         end;
         rewrite H2, H3; repeat split; exact H1 ]).
Qed.

Lemma poll_exit_inv (fuel : nat) (self : StagesSystem.t) (P : primitives)
    (w : world) (stageObj : stage) (timeoutinS start : Q)
    (refs : list image) (s s' : state) (c : Z) :
  poll fuel self P w stageObj timeoutinS start refs s = (SysExit c, s') ->
  c = 5%Z /\
  exists k, (ticks s <= k)%nat /\ time w k <= start + timeoutinS.
Proof.
  revert s. induction fuel as [| fuel IH]; intros s; [discriminate |].
  cbn [poll]. unfold bind at 1. cbn [capture].
  set (s1 := State (S (shots s)) (ticks s) _).
  intros H. apply bind_inv_exit in H.
  destruct (scan_no_exit self P (last (pathsList stageObj))
              (display w (shots s)) refs 0 s1) as (Hne & Hticks & _).
  destruct H as [H | (z & s2 & Hscan & H)].
  - exfalso. apply (Hne c). now rewrite H.
  - rewrite Hscan in Hticks. cbn [snd] in Hticks.
    destruct (negb (z =? -1)%Z).
    + destruct (pathsList stageObj !! Z.to_nat z); discriminate.
    + unfold bind at 1 in H. cbn [py_time] in H.
      destruct (Qle_bool (time w (ticks s2)) (start + timeoutinS)) eqn:Eb.
      * injection H as <- _. split; [reflexivity |].
        exists (ticks s2). split; [subst s1; cbn [ticks] in Hticks; lia |].
        now apply Qle_bool_iff.
      * unfold bind at 1 in H. cbn [py_sleep emit] in H.
        apply IH in H. cbn [ticks] in H.
        destruct H as (-> & k & Hk & Hle). split; [reflexivity |].
        exists k. split; [subst s1; cbn [ticks] in Hticks; lia | exact Hle].
Qed.

(** X21.  The exit codes of the synchronisation loop.  When
    [__wait_for_stage_done] ends the process, the code is 2 or 3 and no
    screenshot has been taken, or the code is 5 and some reading of the
    clock after the start was still within [timeoutS] of the start: once
    the budget has run out the loop never exits with 5. *)
Theorem sync_exit_codes (fuel : nat) (self : StagesSystem.t) (P : primitives)
    (w : world) (stageObj : stage) (s s' : state) (c : Z) :
  wait_for_stage_done fuel self P w stageObj s = (SysExit c, s') ->
  ((c = 2 \/ c = 3)%Z /\ shots s' = shots s) \/
  (c = 5%Z /\
   exists k, (ticks s < k)%nat /\
             time w k <= time w (ticks s) + timeoutS stageObj).
Proof.
  unfold wait_for_stage_done. unfold bind at 1. cbn [py_time].
  intros H. apply bind_inv_exit in H.
  destruct H as [H | (refs & s1 & Hload & H)].
  - left. apply load_refs_exit_inv in H. destruct H as [Hc ->]. now split.
  - right. pose proof (load_refs_keeps_state w (pathsList stageObj)
                         (State (shots s) (S (ticks s)) (trace s))) as Hk.
    rewrite Hload in Hk. cbn [snd] in Hk. subst s1.
    apply poll_exit_inv in H. destruct H as (-> & k & Hk & Hle).
    split; [reflexivity |]. exists k. split; [cbn [ticks] in Hk; lia | exact Hle].
Qed.

Lemma sync_exit_codes_witness :
  ((5 = 2 \/ 5 = 3)%Z /\
   shots (State 1 2 [Machine (Effects.take_screenshot "/tmp/vm0_check.png")])
   = shots initial) \/
  ((5 = 5)%Z /\
   exists k, (ticks initial < k)%nat /\
             time (showing dim) k
             <= time (showing dim) (ticks initial) + timeoutS login).
Proof.
  apply (sync_exit_codes 1 vm0 lab (showing dim) login initial
           (State 1 2 [Machine (Effects.take_screenshot "/tmp/vm0_check.png")])
           5).
  vm_compute. reflexivity.
Defined.

(** X22.  A match on the first capture.  With every reference file in
    place, when the first capture fails the test for the reference images
    of the candidates [pre] and passes it for that of the candidate that
    follows them, [__wait_for_stage_done] returns that candidate after one
    screenshot and one clock reading, without a sleep; what the capture
    would score against the candidates after it plays no part.  The
    thresholds of the test are those of the last candidate of the
    stage. *)
Theorem first_capture_match (fuel : nat) (u : string) (P : primitives)
    (w : world) (stageObj : stage) (pre post : list subpath)
    (cand sp : subpath) (s : state) :
  pathsList stageObj = pre ++ cand :: post ->
  first_bad w (pathsList stageObj) = None ->
  last (pathsList stageObj) = Some sp ->
  Forall (fun ref =>
            is_Some (comp_images P (display w (shots s)) ref) /\
            passes P sp (display w (shots s)) ref = false)
         (map (fun c => cv2_imread w (checkFile c)) pre) ->
  passes P sp (display w (shots s)) (cv2_imread w (checkFile cand)) = true ->
  wait_for_stage_done (S fuel) (Make u false) P w stageObj s =
  (Ret cand,
   State (S (shots s)) (S (ticks s))
         (trace s ++ [Machine (Effects.take_screenshot
                                 ("/tmp/" ++ u ++ "_check.png"))])).
Proof.
  intros Hp Hgood Hlast Hpre Hcand. unfold wait_for_stage_done.
  unfold bind at 1. cbn [py_time].
  rewrite (bind_ret _ _ _ _ _ (load_refs_good w _ _ Hgood)).
  cbn [poll]. unfold bind at 1. cbn [capture uuid shots ticks trace].
  rewrite Hlast. rewrite Hp at 1. rewrite map_app. cbn [map].
  rewrite (bind_ret _ _ _ _ _
             (scan_first_match u P sp _ _ _ _ 0 _ Hpre Hcand)).
  rewrite length_map. cbn [Nat.add].
  replace (negb (Z.of_nat (length pre) =? -1)%Z) with true
    by (symmetry; apply negb_true_iff, Z.eqb_neq; lia).
  rewrite Nat2Z.id, Hp, list_lookup_middle by reflexivity.
  reflexivity.
Qed.

Lemma first_capture_match_witness :
  wait_for_stage_done 1 (Make "vm0" false) lab (showing dim) two_choices
    initial =
  (Ret second_choice,
   State (S (shots initial)) (S (ticks initial))
         (trace initial ++ [Machine (Effects.take_screenshot
                                       ("/tmp/" ++ "vm0" ++ "_check.png"))])).
Proof.
  apply (first_capture_match 0 "vm0" lab (showing dim) two_choices
           [first_choice] [] second_choice second_choice initial).
  - reflexivity.
  - reflexivity.
  - reflexivity.
  - repeat first [apply List.Forall_cons | apply List.Forall_nil].
    split; [eexists; vm_compute; reflexivity | vm_compute; reflexivity].
  - vm_compute. reflexivity.
Defined.

(** X23.  When all candidates of a stage have the same two thresholds (a
    stage with one candidate, for instance), the candidate that
    [__wait_for_stage_done] returns satisfies its own thresholds: at some
    capture, its mse against the candidate's reference image was below
    [checkMseLeq] and its ssim above [checkSsimGeq]. *)
Theorem shared_thresholds_are_respected (fuel : nat) (self : StagesSystem.t)
    (P : primitives) (w : world) (stageObj : stage) (s s' : state)
    (cand : subpath) :
  (forall a b, a ∈ pathsList stageObj -> b ∈ pathsList stageObj ->
               checkMseLeq a = checkMseLeq b /\
               checkSsimGeq a = checkSsimGeq b) ->
  wait_for_stage_done fuel self P w stageObj s = (Ret cand, s') ->
  exists k mse ssim dif,
    comp_images P (display w k) (cv2_imread w (checkFile cand))
    = Some (mse, ssim, dif) /\
    meets cand mse ssim.
Proof.
  intros Hsame H.
  apply returned_candidate_meets_last_thresholds in H.
  destruct H as (sp & k & mse & ssim & dif & Hlast & Hin & E & Hm).
  exists k, mse, ssim, dif. split; [exact E |].
  assert (Hsp : sp ∈ pathsList stageObj).
  { apply last_Some in Hlast. destruct Hlast as [l' El].
    rewrite El. apply elem_of_app. right. constructor. }
  destruct (Hsame cand sp Hin Hsp) as [E1 E2].
  unfold meets in *. now rewrite E1, E2.
Qed.

Lemma shared_thresholds_are_respected_witness :
  exists k mse ssim dif,
    comp_images lab (display (showing black) k)
                (cv2_imread (showing black) (checkFile to_desktop))
    = Some (mse, ssim, dif) /\
    meets to_desktop mse ssim.
Proof.
  apply (shared_thresholds_are_respected 1 vm0 lab (showing black) login
           initial
           (State 1 1 [Machine (Effects.take_screenshot "/tmp/vm0_check.png")])
           to_desktop).
  - intros a b Ha Hb. unfold login in *. cbn [pathsList] in *.
    apply list_elem_of_singleton in Ha, Hb. subst. now split.
  - vm_compute. reflexivity.
Defined.

Lemma only_sync_pure {A} (m : M A) :
  (forall s, trace (snd (m s)) = trace s) -> only_sync m.
Proof. intros H s. exists []. now rewrite H, app_nil_r. Qed.

Lemma only_sync_emit (e : event) : sync_event e = true -> only_sync (emit e).
Proof. intros H s. exists [e]. split; [reflexivity |]. simpl. now rewrite H. Qed.

Lemma only_sync_bind {A B} (m : M A) (k : A -> M B) :
  only_sync m -> (forall a, only_sync (k a)) -> only_sync (bind m k).
Proof.
  intros Hm Hk s. destruct (Hm s) as (e1 & E1 & H1). unfold bind.
  destruct (m s) as [[a | c | e |] s1]; cbn [snd] in *; eauto.
  destruct (Hk a s1) as (e2 & E2 & H2).
  exists (e1 ++ e2). rewrite E2, E1, <- app_assoc. split; [reflexivity |].
  now rewrite forallb_app, H1, H2.
Qed.

Lemma only_sync_load_refs (w : world) (paths : list subpath) :
  only_sync (load_refs w paths).
Proof.
  apply only_sync_pure. intros s. now rewrite load_refs_keeps_state.
Qed.

Lemma only_sync_scan (self : StagesSystem.t) (P : primitives)
    (o : option subpath) (cur : image) (refs : list image) (index : nat) :
  only_sync (scan self P o cur refs index).
Proof.
  revert index. induction refs as [| x refs IH]; intros index; simpl.
  - now apply only_sync_pure.
  - destruct (comp_images P cur x) as [[[mse ssim] dif] |];
      [| now apply only_sync_pure].
    destruct o as [sp |]; [| now apply only_sync_pure].
    apply only_sync_bind.
    + destruct (debugPlt self);
        [now apply only_sync_emit | now apply only_sync_pure].
    + intros _. destruct (_ >=? 1)%Z; [now apply only_sync_pure | apply IH].
Qed.

Lemma only_sync_wait (fuel : nat) (self : StagesSystem.t) (P : primitives)
    (w : world) (stageObj : stage) :
  only_sync (wait_for_stage_done fuel self P w stageObj).
Proof.
  unfold wait_for_stage_done.
  apply only_sync_bind; [now apply only_sync_pure |]. intros start.
  apply only_sync_bind; [apply only_sync_load_refs |]. intros refs.
  generalize (timeoutS stageObj). intros T.
  induction fuel as [| fuel IH]; cbn [poll]; [now apply only_sync_pure |].
  apply only_sync_bind.
  { intros s. eexists [_]. split; reflexivity. }
  intros cur. apply only_sync_bind; [apply only_sync_scan |]. intros z.
  destruct (negb (z =? -1)%Z).
  - destruct (pathsList stageObj !! Z.to_nat z); now apply only_sync_pure.
  - apply only_sync_bind; [now apply only_sync_pure |]. intros now.
    destruct (Qle_bool now (start + T)); [now apply only_sync_pure |].
    apply only_sync_bind; [now apply only_sync_emit | intros _; exact IH].
Qed.

Lemma perform_actions_no_exit (w : world) (acts : list action) (s : state)
    (c : Z) :
  fst (perform_actions w acts s) <> SysExit c.
Proof.
  revert s. induction acts as [| a acts IH]; intros s; [discriminate |].
  cbn [perform_actions]. unfold bind, perform_action, machine_call.
  cbv zeta.
  repeat match goal with
  | |- context [match ?o with Some _ => _ | None => _ end] => destruct o
  end;
  repeat match goal with
  | |- context [machine_hasattr w ?n] => destruct (machine_hasattr w n)
  end; cbn [emit raise fst]; first [apply IH | discriminate].
Qed.

(** X24.  No input is sent before a match.  When [__run_stage] ends the
    process ([sys.exit] for a bad reference file or from the budget test),
    everything it has done to the machine is taking screenshots: the
    events it added are screenshots, telemetry and sleeps, and none of
    the stage's actions has been dispatched. *)
Theorem no_input_before_a_match (fuel : nat) (self : StagesSystem.t)
    (P : primitives) (w : world) (stageObj : stage) (s s' : state) (c : Z) :
  run_stage fuel self P w stageObj s = (SysExit c, s') ->
  exists evs,
    trace s' = trace s ++ evs /\ forallb sync_event evs = true.
Proof.
  unfold run_stage. unfold bind at 1. cbn [py_time].
  intros H. apply bind_inv_exit in H.
  destruct H as [H | (sub & s1 & _ & H)].
  - destruct (only_sync_wait fuel self P w stageObj
                (State (shots s) (S (ticks s)) (trace s))) as (evs & E & Hs).
    rewrite H in E. cbn [snd trace] in E. eauto.
  - exfalso. apply bind_inv_exit in H.
    destruct H as [H | ([] & s2 & _ & H)].
    + apply (perform_actions_no_exit w (actions stageObj) s1 c).
      unfold perform_stage_actions in H. now rewrite H.
    + unfold bind, py_time, ret in H. discriminate.
Qed.

Lemma no_input_before_a_match_witness :
  exists evs,
    trace (State 1 3 [Machine (Effects.take_screenshot "/tmp/vm0_check.png")])
    = trace initial ++ evs /\
    forallb sync_event evs = true.
Proof.
  apply (no_input_before_a_match 1 vm0 lab (showing dim) typing
           initial
           (State 1 3 [Machine (Effects.take_screenshot "/tmp/vm0_check.png")])
           5).
  vm_compute. reflexivity.
Defined.

End MoreLoopFacts.

(** ** More on the stage orchestrator *)

Section MoreOrchestratorFacts.

Local Open Scope sm_scope.

(** X25.  A run never leaves the first stage of the collection.  From the
    entry stage, every move of the orchestrator leads to
    [stagesList[0]] again: whatever the names and next-stage names are, no
    other stage of the collection is ever run. *)
Theorem run_never_leaves_first_stage (fuel : nat) (self : StagesSystem.t)
    (P : primitives) (w : world) (stagesObj : stages) (first : stage)
    (x y : stage * state) :
  stagesList stagesObj !! 0%nat = Some first ->
  fst x = first ->
  rtc (transition fuel self P w stagesObj) x y ->
  fst y = first.
Proof.
  intros Hfirst Hx Hrtc. induction Hrtc as [x | x z y Hstep _ IH];
    [exact Hx |].
  apply IH. now apply (transition_target _ _ _ _ _ _ _ _ Hfirst Hstep).
Qed.

Lemma run_never_leaves_first_stage_witness :
  fst (again, State 1 3 [Machine (Effects.take_screenshot "/tmp/vm0_check.png")])
  = again.
Proof.
  apply (run_never_leaves_first_stage 1 vm0 lab (showing black) looping again
           (again, initial)
           (again,
            State 1 3 [Machine (Effects.take_screenshot "/tmp/vm0_check.png")])).
  - reflexivity.
  - reflexivity.
  - apply rtc_once.
    exists (VStr "again"),
           (State 1 3 [Machine (Effects.take_screenshot "/tmp/vm0_check.png")]).
    split; [vm_compute; reflexivity |]. split; reflexivity.
Defined.

(** X26.  Telemetry does not change a run.  [run_stages] with the sink
    enabled and with it disabled end the same way, after the same number
    of screenshots and clock readings, and with the same events apart from
    the telemetry: the same screenshots, the same sleeps and the same
    input to the machine, in the same order. *)
Theorem telemetry_does_not_change_the_run (rounds fuel : nat) (u : string)
    (P : primitives) (w : world) (stagesObj : stages) (n t : nat) :
  let on := run_stages rounds fuel (Make u true) P w stagesObj (State n t []) in
  let off := run_stages rounds fuel (Make u false) P w stagesObj (State n t []) in
  fst on = fst off /\
  shots (snd on) = shots (snd off) /\
  ticks (snd on) = ticks (snd off) /\
  quiet (trace (snd on)) = quiet (trace (snd off)).
Proof.
  intros on off.
  assert (Hsim : sim (State n t []) (State n t [])) by (now repeat split).
  destruct (agree_run_stages rounds fuel u P w stagesObj _ _ Hsim)
    as (Ho & Hs & Ht & Hq).
  repeat split; assumption.
Qed.

End MoreOrchestratorFacts.
